(** * accounts-service: the account ledger and the onboarding orchestration

    A shallow embedding of [src/index.js] (the accounts API) and of the
    identity and catalog mock servers, followed by the properties of the
    specification that concern them.

    Modelling conventions.
    - A JavaScript value is a [value]; [VUndef] is [undefined].  Strings
      are sequences of bytes (UTF-8).
    - A JavaScript number is a [number]: a finite double, one of the two
      infinities, or NaN.  Addition rounds to the nearest double, ties to
      even, and overflows to an infinity.  The sign of zero is not kept:
      this program cannot tell [-0] from [0].
    - The three [Map]s and the counter of the module are the fields of
      [ledger].  [accountsById] and [balancesByAccountId] are only ever
      written at keys that are strings; [accountsByUserId] is keyed by an
      arbitrary value compared with SameValueZero.
    - The outside (the two downstream services and the clock) is a state
      [W] with a transition for [fetch]; handlers run one at a time.
    - A handler leaves a [trace] of what it did: the downstream requests
      it sent, the accounts it created and the credits it applied. *)

From Stdlib Require Import ZArith String Ascii List Bool Lia.
From stdpp Require Import base option list gmap strings pretty.

Set Warnings "-register-all".
Open Scope string_scope.
Open Scope list_scope.
Open Scope Z_scope.

(** ** Numbers *)

(** A double is NaN, an infinity, or finite; a finite double is an
    integer multiple of 2^-1074, the least positive double, and
    [Fin k] is the double [k × 2^-1074].  Zero has one sign. *)
Inductive number : Type :=
  | Fin (k : Z)
  | PInf
  | NInf
  | NaN.

(** The multiples of 2^-1074 in 1. *)
Definition scale : Z := 2 ^ 1074.

(** The number [z], for an integer [z], and the number [m × 2^e]. *)
Definition of_int (z : Z) : number := Fin (z * scale).
Definition dyadic (m e : Z) : number := Fin (m * 2 ^ (e + 1074)).

(** The double nearest to [k × 2^-1074].  Every multiple of magnitude
    up to 2^53 is a double.  A larger one lies between two doubles that
    are 2^e apart, where its 53 leading bits are followed by [e] more:
    it goes to the nearer, to the one with the even significand when it
    is half way, and to an infinity when that reaches 2^1024 (2^2098
    multiples). *)
Definition round_double (k : Z) : number :=
  let a := Z.abs k in
  if a <=? 2 ^ 53 then Fin k
  else
    let e := Z.log2 a - 52 in
    let q := Z.shiftr a e in
    let r := a - Z.shiftl q e in
    let half := Z.shiftl 1 (e - 1) in
    let q' := if r <? half then q
              else if half <? r then q + 1
              else if Z.even q then q else q + 1 in
    let m := Z.shiftl q' e in
    if 2 ^ 2098 <=? m then (if k <? 0 then NInf else PInf)
    else Fin (if k <? 0 then - m else m).

(** [a + b] on numbers: the exact sum, rounded to a double.  Adding 0
    leaves a number as it is. *)
Definition num_add (a b : number) : number :=
  match a, b with
  | NaN, _ | _, NaN => NaN
  | Fin 0, Fin y => Fin y
  | Fin x, Fin 0 => Fin x
  | Fin x, Fin y => round_double (x + y)
  | PInf, NInf | NInf, PInf => NaN
  | PInf, _ | _, PInf => PInf
  | NInf, _ | _, NInf => NInf
  end.

(** [Number.isNaN]. *)
Definition isNaN (n : number) : bool :=
  match n with NaN => true | _ => false end.

(** [Number.isFinite]. *)
Definition isFinite (n : number) : bool :=
  match n with Fin _ => true | _ => false end.

Definition num_eqb (a b : number) : bool :=
  match a, b with
  | Fin x, Fin y => Z.eqb x y
  | PInf, PInf | NInf, NInf | NaN, NaN => true
  | _, _ => false
  end.

(** The double nearest to the fraction [a / b] of 2^-1074, for [a ≥ 0]
    and [b > 0]: as [round_double], with what is left of the division
    taken into account. *)
Definition round_ratio (a b : Z) : number :=
  let t := a / b in
  let rest := a mod b in
  if t <? 2 ^ 53 then
    Fin (if 2 * rest <? b then t
         else if b <? 2 * rest then t + 1
         else if Z.even t then t else t + 1)
  else
    let e := Z.log2 t - 52 in
    let q := Z.shiftr t e in
    let r := t - Z.shiftl q e in
    let half := Z.shiftl 1 (e - 1) in
    let q' := if r <? half then q
              else if half <? r then q + 1
              else if 0 <? rest then q + 1
              else if Z.even q then q else q + 1 in
    let m := Z.shiftl q' e in
    if 2 ^ 2098 <=? m then PInf else Fin m.

(** The least [j] from [j] on, within [fuel] steps, with
    [a × 10^j ≥ b]. *)
Fixpoint decimal_shift (fuel : nat) (a b : Z) (j : Z) : Z :=
  match fuel with
  | O => j
  | S fuel' => if b <=? a * 10 ^ j then j else decimal_shift fuel' a b (j + 1)
  end.

(** The [n] with [10^(n-1) ≤ a / b < 10^n], for [a > 0] and [b > 0];
    no double is below 10^-324. *)
Definition decimal_order (a b : Z) : Z :=
  if b <=? a then Z.of_nat (String.length (pretty (a / b)))
  else 1 - decimal_shift 400 a b 1.

(** The fewest decimal digits that name the double [k × 2^-1074], which
    lies between [10^(n-1)] and [10^n]: the first [p] among [ps] for
    which a number [s × 10^(n-p)] rounds to it, with that [s]; of two
    such [s] the one nearer to it. *)
Fixpoint shortest_digits (k n : Z) (ps : list Z) : option (Z * Z) :=
  match ps with
  | [] => None
  | p :: rest =>
      let up := 10 ^ Z.max 0 (n - p) in
      let down := 10 ^ Z.max 0 (p - n) in
      let lo := (k * down) / (scale * up) in
      let hi := lo + 1 in
      let names s :=
        match round_ratio (s * up * scale) down with
        | Fin c => Z.eqb c k
        | _ => false
        end in
      let below := k * down - lo * (scale * up) in
      let above := hi * (scale * up) - k * down in
      if names lo && names hi then
        (if below <? above then Some (lo, p)
         else if above <? below then Some (hi, p)
         else if Z.even lo then Some (lo, p) else Some (hi, p))
      else if names lo then Some (lo, p)
      else if names hi then Some (hi, p)
      else shortest_digits k n rest
  end.

Fixpoint zeros (n : nat) : string :=
  match n with
  | O => ""
  | S m => String "0" (zeros m)
  end.

(** [String(x)] for a double [x = k × 2^-1074 > 0]: its shortest digits
    (17 always do), written in full with the decimal point where it
    falls when [x] is between 10^-7 and 10^21, and in exponent notation
    otherwise. *)
Definition magnitude_to_string (k : Z) : string :=
  let n := decimal_order k scale in
  match shortest_digits k n (map Z.of_nat (seq 1 17)) with
  | None => ""
  | Some (s, p) =>
      let '(ds, n) := if s =? 10 ^ p then ("1", n + 1) else (pretty s, n) in
      let len := String.length ds in
      if (Z.of_nat len <=? n) && (n <=? 21) then
        ds +:+ zeros (Z.to_nat n - len)
      else if (0 <? n) && (n <=? 21) then
        String.substring 0 (Z.to_nat n) ds +:+ "."
          +:+ String.substring (Z.to_nat n) (len - Z.to_nat n) ds
      else if (-6 <? n) && (n <=? 0) then
        "0." +:+ zeros (Z.to_nat (- n)) +:+ ds
      else
        let e := n - 1 in
        let exponent :=
          if e <? 0 then "e-" +:+ pretty (- e) else "e+" +:+ pretty e in
        match ds with
        | "" => ""
        | String d "" => String d "" +:+ exponent
        | String d more => String d ("." +:+ more) +:+ exponent
        end
  end.

(** [String(n)]. *)
Definition num_to_string (n : number) : string :=
  match n with
  | Fin 0 => "0"
  | Fin k =>
      if k <? 0 then "-" +:+ magnitude_to_string (- k)
      else magnitude_to_string k
  | PInf => "Infinity"
  | NInf => "-Infinity"
  | NaN => "NaN"
  end.

(** ** Values *)

Inductive value : Type :=
  | VUndef
  | VNull
  | VBool (b : bool)
  | VNum (n : number)
  | VStr (s : string)
  | VArr (items : list value)
  | VObj (fields : list (string * value)).

(** ToBoolean: what [!v] and [v || w] test. *)
Definition truthy (v : value) : bool :=
  match v with
  | VUndef | VNull => false
  | VBool b => b
  | VNum (Fin 0) | VNum NaN => false
  | VNum _ => true
  | VStr s => negb (String.eqb s "")
  | VArr _ | VObj _ => true
  end.

(** [a || b]. *)
Definition or_else (a b : value) : value := if truthy a then a else b.

(** ToString.  An array is joined, and an object is given the string
    of [Object.prototype.toString]; an object with a [toString] of its
    own, which ToString would look at first, is not told apart. *)
Fixpoint to_string (v : value) : string :=
  match v with
  | VUndef => "undefined"
  | VNull => "null"
  | VBool true => "true"
  | VBool false => "false"
  | VNum n => num_to_string n
  | VStr s => s
  | VArr items =>
      (fix join (l : list value) : string :=
         match l with
         | [] => ""
         | x :: rest =>
             let sx := match x with
                       | VUndef | VNull => ""
                       | _ => to_string x
                       end in
             match rest with
             | [] => sx
             | _ :: _ => sx +:+ "," +:+ join rest
             end
         end) items
  | VObj _ => "[object Object]"
  end.

(** SameValueZero, the key comparison of [Map].  Two objects (or arrays)
    are the same only when they are one object; every object that reaches
    a map of this program comes out of a fresh [JSON.parse], hence is the
    same as no key already present. *)
Definition same_value_zero (a b : value) : bool :=
  match a, b with
  | VUndef, VUndef | VNull, VNull => true
  | VBool x, VBool y => Bool.eqb x y
  | VNum x, VNum y => num_eqb x y
  | VStr x, VStr y => String.eqb x y
  | _, _ => false
  end.

(** Own property of an object, [undefined] when absent.  None of the
    names this program reads is inherited from a prototype, so a
    primitive or an array has none of them. *)
Fixpoint assoc (k : string) (fields : list (string * value)) : value :=
  match fields with
  | [] => VUndef
  | (k', v) :: rest => if String.eqb k k' then v else assoc k rest
  end.

Definition field (v : value) (k : string) : value :=
  match v with
  | VObj fields => assoc k fields
  | _ => VUndef
  end.

(** Destructuring with a default: [{ k = d }]. *)
Definition field_default (v : value) (k : string) (d : value) : value :=
  match field v k with
  | VUndef => d
  | x => x
  end.

(** ** Errors and outcomes *)

(** A thrown [Error]: its [message], and its [status] property when it
    has one. *)
Record js_error : Type := JsError {
  err_message : string;
  err_status : option Z
}.

Inductive outcome (A : Type) : Type :=
  | Return (a : A)
  | Throw (e : js_error).
Arguments Return {A} a.
Arguments Throw {A} e.

Global Instance outcome_ret : MRet outcome := λ A, Return.
Global Instance outcome_bind : MBind outcome := λ A B k o,
  match o with
  | Return a => k a
  | Throw e => Throw e
  end.

(** [v.k], which throws a [TypeError] on [null] and [undefined]. *)
Definition get_prop (v : value) (k : string) : outcome value :=
  match v with
  | VUndef | VNull =>
      Throw (JsError ("Cannot read properties of " +:+ to_string v +:+
                      " (reading '" +:+ k +:+ "')") None)
  | _ => Return (field v k)
  end.

(** [err.status || 500]. *)
Definition status_or_500 (e : js_error) : Z :=
  match err_status e with
  | Some s => if Z.eqb s 0 then 500 else s
  | None => 500
  end.

(** ** Downstream requests and responses *)

(** What [fetch(url, options)] sends.  A [GET] has no body; the body of
    a [POST] is the value handed to [JSON.stringify]. *)
Record request : Type := Request {
  req_method : string;
  req_url : string;
  req_body : option value
}.

(** The text of a response, as [JSON.parse] sees it: empty, the JSON text
    of a value, or a non-empty text that is not JSON (with the message of
    the [SyntaxError] the parser throws on it). *)
Inductive payload : Type :=
  | EmptyText
  | JsonText (v : value)
  | BadText (syntax_error : string).

Record http_response : Type := HttpResponse {
  res_status : Z;
  res_statusText : string;
  res_text : payload
}.

(** [res.ok]. *)
Definition res_ok (r : http_response) : bool :=
  (200 <=? res_status r) && (res_status r <=? 299).

(** [fetch] resolves with a response or rejects (a [TypeError] without
    [status]) when the service cannot be reached. *)
Inductive net_result : Type :=
  | Responds (r : http_response)
  | Unreachable (msg : string).

(** [text ? JSON.parse(text) : {}]. *)
Definition parse_text (p : payload) : outcome value :=
  match p with
  | EmptyText => Return (VObj [])
  | JsonText v => Return v
  | BadText msg => Throw (JsError msg None)
  end.

(** ** encodeURIComponent *)

Definition is_digit (n : nat) : bool := ((48 <=? n) && (n <=? 57))%nat.
Definition is_upper (n : nat) : bool := ((65 <=? n) && (n <=? 90))%nat.
Definition is_lower (n : nat) : bool := ((97 <=? n) && (n <=? 122))%nat.

(** The characters [encodeURIComponent] leaves alone:
    [A-Z a-z 0-9 - _ . ! ~ * ' ( )]. *)
Definition unreserved (c : ascii) : bool :=
  let n := nat_of_ascii c in
  is_digit n || is_upper n || is_lower n ||
  existsb (Nat.eqb n) [45; 95; 46; 33; 126; 42; 39; 40; 41]%nat.

Definition hex_digit (n : nat) : ascii :=
  ascii_of_nat (if (n <? 10)%nat then 48 + n else 55 + n)%nat.

Definition percent_encode (c : ascii) : string :=
  let n := nat_of_ascii c in
  String "%" (String (hex_digit (n / 16)) (String (hex_digit (n mod 16)) "")).

Fixpoint encode_bytes (s : string) : string :=
  match s with
  | "" => ""
  | String c rest =>
      (if unreserved c then String c "" else percent_encode c)
      +:+ encode_bytes rest
  end.

Definition encodeURIComponent (v : value) : string :=
  encode_bytes (to_string v).

(** ** The ledger *)

Record Account : Type := mkAccount {
  id : string;
  userId : value;
  type : value;
  createdAt : string
}.

(** A [Map] keyed by values: entries in insertion order, keys compared
    with SameValueZero. *)
Fixpoint vmap_get {V : Type} (m : list (value * V)) (k : value) : option V :=
  match m with
  | [] => None
  | (k', v) :: rest =>
      if same_value_zero k' k then Some v else vmap_get rest k
  end.

Fixpoint vmap_set {V : Type} (m : list (value * V)) (k : value) (v : V)
  : list (value * V) :=
  match m with
  | [] => [(k, v)]
  | (k', v') :: rest =>
      if same_value_zero k' k then (k', v) :: rest
      else (k', v') :: vmap_set rest k v
  end.

(** The module-level state of [index.js]. *)
Record ledger : Type := mkLedger {
  accountsById : gmap string Account;
  accountsByUserId : list (value * list Account);
  balancesByAccountId : gmap string number;
  accountCounter : nat
}.

Definition initial_ledger : ledger :=
  {| accountsById := ∅; accountsByUserId := [];
     balancesByAccountId := ∅; accountCounter := 1 |}.

(** [`a${accountCounter}`]. *)
Definition account_id (counter : nat) : string := "a" +:+ pretty counter.

(** [balancesByAccountId.get(id) || 0]. *)
Definition balance_or_zero (l : ledger) (accountId : string) : number :=
  match balancesByAccountId l !! accountId with
  | Some (Fin 0) | Some NaN | None => Fin 0
  | Some n => n
  end.

(** [createAccount({ userId, type })] at clock reading [now]. *)
Definition createAccount_in (now : string) (userId type : value) (l : ledger)
  : Account * ledger :=
  let id := account_id (accountCounter l) in
  let account := mkAccount id userId type now in
  let existing := default [] (vmap_get (accountsByUserId l) userId) in
  (account,
   {| accountsById := <[id := account]> (accountsById l);
      accountsByUserId :=
        vmap_set (accountsByUserId l) userId (existing ++ [account]);
      balancesByAccountId := <[id := Fin 0]> (balancesByAccountId l);
      accountCounter := S (accountCounter l) |}).

(** [applyCredit(accountId, amount)]; both callers pass a number. *)
Definition applyCredit_in (accountId : string) (amount : number) (l : ledger)
  : number * ledger :=
  let current := balance_or_zero l accountId in
  let next := num_add current amount in
  (next,
   {| accountsById := accountsById l;
      accountsByUserId := accountsByUserId l;
      balancesByAccountId := <[accountId := next]> (balancesByAccountId l);
      accountCounter := accountCounter l |}).

(** ** The outside, the machine state and the handler monad *)

(** The configuration read from [process.env] and the outside world: what
    a [fetch] is answered (and how the outside changes), and the clock. *)
Record env (W : Type) : Type := Env {
  IDENTITY_BASE_URL : string;
  CATALOG_BASE_URL : string;
  fetch : request → W → net_result * W;
  clock : W → string
}.
Arguments IDENTITY_BASE_URL {W} _.
Arguments CATALOG_BASE_URL {W} _.
Arguments fetch {W} _ _ _.
Arguments clock {W} _ _.

(** What a handler did, in order. *)
Inductive event : Type :=
  | Fetched (r : request)
  | Created (account : Account)
  | Credited (accountId : string) (amount : number).

Record state (W : Type) : Type := State {
  store : ledger;
  outside : W;
  trace : list event
}.
Arguments State {W} _ _ _.
Arguments store {W} _.
Arguments outside {W} _.
Arguments trace {W} _.

(** The body of a JSON response. *)
Inductive reply : Type :=
  | ReplyError (error : string)
  | ReplyAccount (account : Account)
  | ReplyAccountBalance (account : Account) (balance : number)
  | ReplyAccounts (accounts : list Account)
  | ReplyCredit (accountId : string) (balance : number)
  | ReplyOnboard (user : value) (account : Account) (assignment : value)
      (balance : number)
  | ReplyHealth (status service : string).

Record response : Type := Response {
  status : Z;
  json : reply
}.

(** A computation that reads and writes the machine state and returns or
    throws.  What was written before a throw stays written. *)
Definition M (W A : Type) : Type := state W → outcome A * state W.

Definition ret {W A} (a : A) : M W A := λ s, (Return a, s).

Definition bind {W A B} (m : M W A) (k : A → M W B) : M W B :=
  λ s, match m s with
       | (Return a, s') => k a s'
       | (Throw e, s') => (Throw e, s')
       end.

(** [try { m } catch (err) { h err }]. *)
Definition try_catch {W A} (m : M W A) (h : js_error → M W A) : M W A :=
  λ s, match m s with
       | (Return a, s') => (Return a, s')
       | (Throw e, s') => h e s'
       end.

Definition lift {W A} (o : outcome A) : M W A := λ s, (o, s).

Definition emit {W} (e : event) : M W unit :=
  λ s, (Return tt, State (store s) (outside s) (trace s ++ [e])).

Definition read {W A} (f : ledger → A) : M W A :=
  λ s, (Return (f (store s)), s).

Definition update {W A} (f : ledger → A * ledger) : M W A :=
  λ s, let '(a, l) := f (store s) in
       (Return a, State l (outside s) (trace s)).

Global Instance M_ret {W} : MRet (M W) := λ A, ret.
Global Instance M_bind {W} : MBind (M W) := λ A B k m, bind m k.

(** The part of [fetchJson] that follows [await fetch(...)], on the
    response [res]. *)
Definition receive (res : http_response) : outcome value :=
  data ← parse_text (res_text res) ;
  if negb (res_ok res) then
    error ← get_prop data "error" ;
    Throw (JsError (to_string (or_else error (VStr (res_statusText res))))
                   (Some (res_status res)))
  else Return data.

(** [fetchJson] on what [fetch] resolved or rejected with. *)
Definition settle (answer : net_result) : outcome value :=
  match answer with
  | Responds res => receive res
  | Unreachable msg => Throw (JsError msg None)
  end.

(** [data.k || data]. *)
Definition field_or_self (data : value) (k : string) : outcome value :=
  v ← get_prop data k ;
  Return (or_else v data).

(** [typeof v === "number" && !Number.isNaN(v)], with the number. *)
Definition numeric (v : value) : option number :=
  match v with
  | VNum n => if isNaN n then None else Some n
  | _ => None
  end.

Section Service.
Context {W : Type} (E : env W).

(** [new Date().toISOString()]. *)
Definition now : M W string := λ s, (Return (clock E (outside s)), s).

(** [fetchJson(url, options)]: the request goes out, the outside moves
    on, and the answer is settled. *)
Definition fetchJson (r : request) : M W value :=
  λ s, let '(answer, w) := fetch E r (outside s) in
       (settle answer, State (store s) w (trace s ++ [Fetched r])).

Definition ensureUserExists (userId : value) : M W value :=
  data ← fetchJson
           (Request "GET"
              (IDENTITY_BASE_URL E +:+ "/users/" +:+ encodeURIComponent userId)
              None) ;
  lift (field_or_self data "user").

Definition createAccount (userId type : value) : M W Account :=
  t ← now ;
  account ← update (createAccount_in t userId type) ;
  _ ← emit (Created account) ;
  ret account.

Definition applyCredit (accountId : string) (amount : number) : M W number :=
  next ← update (applyCredit_in accountId amount) ;
  _ ← emit (Credited accountId amount) ;
  ret next.

(** [catch (err) { ... res.status(err.status || 500).json(...) }]. *)
Definition on_error (err : js_error) : M W response :=
  ret (Response (status_or_500 err) (ReplyError (err_message err))).

(** [POST /accounts]. *)
Definition post_accounts (body : value) : M W response :=
  try_catch
    (let b := or_else body (VObj []) in
     let userId := field b "userId" in
     let type := field_default b "type" (VStr "standard") in
     if negb (truthy userId) then
       ret (Response 400 (ReplyError "userId is required"))
     else
       _ ← ensureUserExists userId ;
       account ← createAccount userId type ;
       ret (Response 201 (ReplyAccount account)))
    on_error.

(** [GET /accounts/:id]. *)
Definition get_account (param_id : string) : M W response :=
  found ← read (λ l, accountsById l !! param_id) ;
  match found with
  | None => ret (Response 404 (ReplyError "account not found"))
  | Some account =>
      balance ← read (λ l, balance_or_zero l (id account)) ;
      ret (Response 200 (ReplyAccountBalance account balance))
  end.

(** [GET /accounts?userId=]. *)
Definition get_accounts (query : value) : M W response :=
  let userId := field (or_else query (VObj [])) "userId" in
  if negb (truthy userId) then
    ret (Response 400 (ReplyError "userId query is required"))
  else
    accounts ← read (λ l, default [] (vmap_get (accountsByUserId l) userId)) ;
    ret (Response 200 (ReplyAccounts accounts)).

(** [POST /accounts/:id/credit]. *)
Definition post_credit (param_id : string) (body : value) : M W response :=
  found ← read (λ l, accountsById l !! param_id) ;
  match found with
  | None => ret (Response 404 (ReplyError "account not found"))
  | Some account =>
      let amount := field (or_else body (VObj [])) "amount" in
      match numeric amount with
      | None => ret (Response 400 (ReplyError "amount must be a number"))
      | Some n =>
          balance ← applyCredit (id account) n ;
          ret (Response 200 (ReplyCredit (id account) balance))
      end
  end.

(** The request the onboarding sends to the identity service. *)
Definition create_user_request (name email : value) : request :=
  Request "POST" (IDENTITY_BASE_URL E +:+ "/users")
    (Some (VObj [("name", name); ("email", email)])).

(** The request the onboarding sends to the catalog service. *)
Definition assign_request (productId : value) (accountId : string) : request :=
  Request "POST"
    (CATALOG_BASE_URL E +:+ "/products/" +:+ encodeURIComponent productId
       +:+ "/assign")
    (Some (VObj [("accountId", VStr accountId)])).

(** [POST /accounts/onboard], after the destructuring of the body. *)
Definition onboard (name email productId initialCredit : value)
  : M W response :=
  if negb (truthy name) || negb (truthy email) || negb (truthy productId)
  then
    ret (Response 400 (ReplyError "name, email, and productId are required"))
  else
    userResponse ← fetchJson (create_user_request name email) ;
    user ← lift (field_or_self userResponse "user") ;
    user_id ← lift (get_prop user "id") ;
    account ← createAccount user_id (VStr "standard") ;
    _ ← match numeric initialCredit with
        | Some n => _ ← applyCredit (id account) n ; ret tt
        | None => ret tt
        end ;
    assignmentResponse ← fetchJson (assign_request productId (id account)) ;
    balance ← read (λ l, balance_or_zero l (id account)) ;
    assignment ← lift (field_or_self assignmentResponse "assignment") ;
    ret (Response 201 (ReplyOnboard user account assignment balance)).

Definition post_onboard (body : value) : M W response :=
  try_catch
    (let b := or_else body (VObj []) in
     onboard (field b "name") (field b "email") (field b "productId")
       (field_default b "initialCredit" (VNum (Fin 0))))
    on_error.

(** [GET /health]. *)
Definition get_health : M W response :=
  ret (Response 200 (ReplyHealth "ok" "accounts-api")).

(** The routes of the service. *)
Inductive api_request : Type :=
  | PostAccounts (body : value)
  | GetAccount (param_id : string)
  | GetAccounts (query : value)
  | PostCredit (param_id : string) (body : value)
  | PostOnboard (body : value)
  | GetHealth.

Definition handle (r : api_request) : M W response :=
  match r with
  | PostAccounts body => post_accounts body
  | GetAccount i => get_account i
  | GetAccounts query => get_accounts query
  | PostCredit i body => post_credit i body
  | PostOnboard body => post_onboard body
  | GetHealth => get_health
  end.

(** The state after a sequence of requests, each run to its end. *)
Fixpoint serve (rs : list api_request) (s : state W) : state W :=
  match rs with
  | [] => s
  | r :: rest => serve rest (snd (handle r s))
  end.

Definition boot (w : W) : state W := State initial_ledger w [].

End Service.

(** ** The identity and catalog mock servers *)

Module Mock.

(** [s.split(c)] for a one-character separator. *)
Fixpoint split_on (c : ascii) (s : string) : list string :=
  match s with
  | "" => [""]
  | String x rest =>
      if Ascii.eqb x c then "" :: split_on c rest
      else match split_on c rest with
           | [] => [String x ""]
           | h :: t => String x h :: t
           end
  end.

(** [parts.filter(Boolean)] on strings. *)
Definition nonempty (parts : list string) : list string :=
  List.filter (λ p, negb (String.eqb p "")) parts.

(** [s.startsWith(p)]. *)
Definition startsWith (s p : string) : bool := String.prefix p s.

(** [s.slice(1)]. *)
Definition slice1 (s : string) : string :=
  match s with
  | "" => ""
  | String _ rest => rest
  end.

(** The loop of [matchPath] over the two lists of parts, which have the
    same length. *)
Fixpoint match_parts (urlParts patternParts : list string)
    (params : list (string * string)) : option (list (string * string)) :=
  match patternParts, urlParts with
  | [], _ => Some params
  | p :: ps, u :: us =>
      if startsWith p ":" then match_parts us ps (params ++ [(slice1 p, u)])
      else if negb (String.eqb p u) then None
      else match_parts us ps params
  | _ :: _, [] => None
  end.

Definition matchPath (url pattern : string)
  : option (list (string * string)) :=
  let urlParts := nonempty (split_on "/" url) in
  let patternParts := nonempty (split_on "/" pattern) in
  if negb (Nat.eqb (length urlParts) (length patternParts)) then None
  else match_parts urlParts patternParts [].

(** [params.k] for a parameter the pattern binds once. *)
Fixpoint param (k : string) (params : list (string * string)) : string :=
  match params with
  | [] => ""
  | (k', v) :: rest => if String.eqb k k' then v else param k rest
  end.

(** [JSON.parse(JSON.stringify(v))]: what arrives of a value sent as
    JSON.  Numbers that are not finite and [undefined] items become
    [null]; [undefined] properties are dropped. *)
Fixpoint wire (v : value) : value :=
  match v with
  | VNum (Fin z) => VNum (Fin z)
  | VNum _ => VNull
  | VArr items =>
      VArr ((fix each (l : list value) : list value :=
               match l with
               | [] => []
               | VUndef :: rest => VNull :: each rest
               | x :: rest => wire x :: each rest
               end) items)
  | VObj fields =>
      VObj ((fix each (l : list (string * value)) : list (string * value) :=
               match l with
               | [] => []
               | (_, VUndef) :: rest => each rest
               | (k, x) :: rest => (k, wire x) :: each rest
               end) fields)
  | other => other
  end.

(** The reason phrase Node writes for a status code. *)
Definition status_text (code : Z) : string :=
  match code with
  | 200 => "OK"
  | 201 => "Created"
  | 400 => "Bad Request"
  | 404 => "Not Found"
  | _ => ""
  end.

(** [sendJson(res, statusCode, data)], as the client receives it. *)
Definition sendJson (statusCode : Z) (data : value) : http_response :=
  HttpResponse statusCode (status_text statusCode) (JsonText (wire data)).

(** [parseJsonBody(req)]: an empty body is [{}]. *)
Definition parseJsonBody (body : option value) : value :=
  match body with
  | None | Some VUndef => VObj []
  | Some v => wire v
  end.

(** The in-memory stores of the mock process. *)
Record servers : Type := Servers {
  usersById : gmap string value;
  userCounter : nat;
  assignmentCounter : nat
}.

Definition initial : servers := Servers ∅ 1 1.

Definition route_not_found (method url : string) : http_response :=
  sendJson 404 (VObj [("error", VStr "Route not found");
                      ("method", VStr method); ("url", VStr url)]).

(** The identity server on a request with method [method] and target
    [target]. *)
Definition identityServer (method target : string) (body : option value)
    (m : servers) : http_response * servers :=
  let url := hd "" (split_on "?" target) in
  if String.eqb method "GET" && String.eqb url "/health" then
    (sendJson 200 (VObj [("status", VStr "ok");
                         ("service", VStr "identity-api-mock")]), m)
  else
    match (if String.eqb method "GET" then matchPath url "/users/:userId"
           else None) with
    | Some getUserParams =>
        let userId := param "userId" getUserParams in
        if startsWith userId "unknown" then
          (sendJson 404 (VObj [("error", VStr "user not found")]), m)
        else
          match usersById m !! userId with
          | Some user => (sendJson 200 (VObj [("user", user)]), m)
          | None =>
              (sendJson 200
                 (VObj [("user",
                         VObj [("id", VStr userId);
                               ("name", VStr "Mock User");
                               ("email", VStr "mock@example.com")])]), m)
          end
    | None =>
        if String.eqb method "POST" && String.eqb url "/users" then
          match parseJsonBody body with
          | VNull => (sendJson 400 (VObj [("error", VStr "Invalid JSON body")]), m)
          | parsed =>
              let name := field parsed "name" in
              let email := field parsed "email" in
              if negb (truthy name) || negb (truthy email) then
                (sendJson 400
                   (VObj [("error", VStr "name and email are required")]), m)
              else
                let uid := "u" +:+ pretty (userCounter m) in
                let user := VObj [("id", VStr uid); ("name", name);
                                  ("email", email)] in
                (sendJson 201 (VObj [("user", user)]),
                 Servers (<[uid := user]> (usersById m))
                   (S (userCounter m)) (assignmentCounter m))
          end
        else (route_not_found method url, m)
    end.

(** The catalog server. *)
Definition catalogServer (method target : string) (body : option value)
    (m : servers) : http_response * servers :=
  let url := hd "" (split_on "?" target) in
  if String.eqb method "GET" && String.eqb url "/health" then
    (sendJson 200 (VObj [("status", VStr "ok");
                         ("service", VStr "catalog-api-mock")]), m)
  else
    match (if String.eqb method "POST"
           then matchPath url "/products/:productId/assign"
           else None) with
    | Some assignParams =>
        let productId := param "productId" assignParams in
        if startsWith productId "unknown" then
          (sendJson 404 (VObj [("error", VStr "product not found")]), m)
        else
          match parseJsonBody body with
          | VNull => (sendJson 400 (VObj [("error", VStr "Invalid JSON body")]), m)
          | parsed =>
              let accountId := field parsed "accountId" in
              if negb (truthy accountId) then
                (sendJson 400 (VObj [("error", VStr "accountId is required")]), m)
              else
                let assignment :=
                  VObj [("id", VStr ("as" +:+ pretty (assignmentCounter m)));
                        ("productId", VStr productId);
                        ("accountId", accountId)] in
                (sendJson 200 (VObj [("assignment", assignment)]),
                 Servers (usersById m) (userCounter m)
                   (S (assignmentCounter m)))
          end
    | None => (route_not_found method url, m)
    end.

(** [fetch] parses the URL before it sends the request: in the path, a
    segment [.] is dropped and a segment [..] also drops the segment
    before it; when such a segment is the last one, the path ends in an
    empty segment.  (The URLs [index.js] builds have no query and no
    fragment, and [encodeURIComponent] writes no percent-encoded dot.) *)
Fixpoint remove_dot_segments (segments path : list string) : list string :=
  match segments with
  | [] => path
  | seg :: rest =>
      let at_end := match rest with [] => true | _ :: _ => false end in
      if String.eqb seg ".." then
        remove_dot_segments rest
          (if at_end then removelast path ++ [""] else removelast path)
      else if String.eqb seg "." then
        remove_dot_segments rest (if at_end then path ++ [""] else path)
      else remove_dot_segments rest (path ++ [seg])
  end.

(** The request target for what follows the origin in a URL. *)
Definition request_target (after_origin : string) : string :=
  "/" +:+ String.concat "/"
            (remove_dot_segments (split_on "/" (slice1 after_origin)) []).

(** [s] without its prefix [p], when it has it. *)
Fixpoint strip (p s : string) : option string :=
  match p, s with
  | "", _ => Some s
  | String a p', String b s' => if Ascii.eqb a b then strip p' s' else None
  | String _ _, "" => None
  end.

Definition identity_origin : string := "http://identity-api:3001".
Definition catalog_origin : string := "http://catalog-api:3003".

(** The network of the two mock servers: a request to one of the two
    origins is answered by its server, any other is not answered. *)
Definition network (r : request) (m : servers) : net_result * servers :=
  let serve_with server after_origin :=
    if startsWith after_origin "/" then
      let '(res, m') :=
        server (req_method r) (request_target after_origin) (req_body r) m in
      (Responds res, m')
    else (Unreachable "fetch failed", m) in
  match strip identity_origin (req_url r) with
  | Some after_origin => serve_with identityServer after_origin
  | None =>
      match strip catalog_origin (req_url r) with
      | Some after_origin => serve_with catalogServer after_origin
      | None => (Unreachable "fetch failed", m)
      end
  end.

(** The accounts service with its defaults, wired to the two mocks; the
    clock is stopped. *)
Definition world : env servers :=
  Env servers identity_origin catalog_origin network
    (λ _, "2026-02-11T10:00:00.000Z").

End Mock.

(** ** Notions used in the statements *)

(** The deltas credited to an account so far, oldest first. *)
Fixpoint credits_to (accountId : string) (t : list event) : list number :=
  match t with
  | [] => []
  | Credited i n :: rest =>
      if String.eqb i accountId then n :: credits_to accountId rest
      else credits_to accountId rest
  | _ :: rest => credits_to accountId rest
  end.

(** The sum of a sequence of deltas, starting from 0. *)
Definition total (deltas : list number) : number :=
  fold_left num_add deltas (Fin 0).

(** Whether [k × 2^-1074] is a double. *)
Definition is_double (k : Z) : bool :=
  match round_double k with
  | Fin k' => Z.eqb k' k
  | _ => false
  end.

(** Whether the deltas [zs] (multiples of 2^-1074) and the sums they
    lead to, added one after the other to [acc], are all doubles: the
    deltas are finite and no addition rounds or overflows. *)
Fixpoint exact_sums (acc : Z) (zs : list Z) : bool :=
  match zs with
  | [] => true
  | z :: rest =>
      is_double z && is_double (acc + z) && exact_sums (acc + z) rest
  end.

(** The accounts created so far for a user id, oldest first. *)
Fixpoint created_for (u : value) (t : list event) : list Account :=
  match t with
  | [] => []
  | Created a :: rest =>
      if same_value_zero (userId a) u then a :: created_for u rest
      else created_for u rest
  | _ :: rest => created_for u rest
  end.

(** The balance of a fresh account once [initialCredit] has been looked
    at: the credit when it passes the test of the handler, else 0. *)
Definition opening_balance (initialCredit : value) : number :=
  match numeric initialCredit with
  | Some n => n
  | None => Fin 0
  end.

(** What a call that answers [answer] yields once [fetchJson] has settled
    it and the caller has taken [data.k || data]: the user of
    [createUser] and [fetchUser], the assignment of [assignProduct]. *)
Definition yields (answer : net_result) (k : string) : outcome value :=
  data ← settle answer ;
  field_or_self data k.

(** The values that are not objects: ToString gives each of them a
    string, whereas on an object or an array it runs the methods of the
    object. *)
Definition primitive (v : value) : bool :=
  match v with
  | VArr _ | VObj _ => false
  | _ => true
  end.

(** When [answer] is a failure of the downstream, [r] reports it: a
    response that is not 2xx (its status is an HTTP status, so not 0) and
    whose body is empty or the JSON text of a value other than [null],
    with an [error] that is no object, is reported with its own status
    and the [error] of its body, else its status text; no answer at all
    is reported as a 500. *)
Definition surfaces (answer : net_result) (r : response) : Prop :=
  (∀ res data,
      answer = Responds res → res_ok res = false → res_status res ≠ 0 →
      parse_text (res_text res) = Return data →
      data ≠ VNull → data ≠ VUndef →
      primitive (field data "error") = true →
      r = Response (res_status res)
            (ReplyError (to_string (or_else (field data "error")
                                      (VStr (res_statusText res)))))) ∧
  (∀ msg, answer = Unreachable msg → r = Response 500 (ReplyError msg)).

(** [s.includes(c)] for a character [c]. *)
Fixpoint has (c : ascii) (s : string) : bool :=
  match s with
  | "" => false
  | String x rest => Ascii.eqb x c || has c rest
  end.

(** Strings [encodeURIComponent] returns unchanged. *)
Fixpoint all_unreserved (s : string) : bool :=
  match s with
  | "" => true
  | String c rest => unreserved c && all_unreserved rest
  end.

(** What holds of the ledger and the trace in every state the service
    reaches. *)
Record consistent {W : Type} (s : state W) : Prop := Consistent {
  ids_issued : ∀ i, is_Some (accountsById (store s) !! i) →
    ∃ n, i = account_id n ∧ (n < accountCounter (store s))%nat;
  ids_match : ∀ i a, accountsById (store s) !! i = Some a → id a = i;
  balances_domain : ∀ i,
    is_Some (balancesByAccountId (store s) !! i) ↔
    is_Some (accountsById (store s) !! i);
  credits_domain : ∀ i,
    credits_to i (trace s) ≠ [] → is_Some (accountsById (store s) !! i);
  balances_total : ∀ i,
    is_Some (accountsById (store s) !! i) →
    total (credits_to i (trace s)) ≠ NaN →
    balancesByAccountId (store s) !! i = Some (total (credits_to i (trace s)));
  listing : ∀ u,
    default [] (vmap_get (accountsByUserId (store s)) u)
    = created_for u (trace s)
}.

(** A computation started in a consistent state where [P] holds ends in
    a consistent state, where [Q a] holds when it returns [a]. *)
Definition runs {W A : Type} (P : state W → Prop) (m : M W A)
    (Q : A → state W → Prop) : Prop :=
  ∀ s, consistent s → P s →
    consistent (snd (m s)) ∧ ∀ a, fst (m s) = Return a → Q a (snd (m s)).

(** A downstream that answers every request with 503 and an HTML page. *)
Definition gateway_down : env unit :=
  Env unit "http://identity-api:3001" "http://catalog-api:3003"
    (λ _ w, (Responds (HttpResponse 503 "Service Unavailable"
                         (BadText "Unexpected token '<'")), w))
    (λ _, "2026-02-11T10:00:00.000Z").

(** The request body of the end-to-end scenarios. *)
Definition ada (productId : value) (more : list (string * value)) : value :=
  VObj ([("name", VStr "Ada"); ("email", VStr "ada@example.com");
         ("productId", productId)] ++ more).

(** An account is opened for user [u7], then credited with
    [+Infinity], [-Infinity] and 5. *)
Definition both_infinities : list api_request :=
  [PostAccounts (VObj [("userId", VStr "u7")]);
   PostCredit "a1" (VObj [("amount", VNum PInf)]);
   PostCredit "a1" (VObj [("amount", VNum NInf)]);
   PostCredit "a1" (VObj [("amount", VNum (of_int 5))])].

(** Two accounts for user [u7] and one for [u8] in between, then a
    credit of 100 and a debit of 250 on the first. *)
Definition three_accounts : list api_request :=
  [PostAccounts (VObj [("userId", VStr "u7")]);
   PostAccounts (VObj [("userId", VStr "u8"); ("type", VStr "savings")]);
   PostAccounts (VObj [("userId", VStr "u7")]);
   PostCredit "a1" (VObj [("amount", VNum (of_int 100))]);
   PostCredit "a1" (VObj [("amount", VNum (of_int (-250)))])].

(** An account is opened for user [u7], then credited with 2^53 and
    with 1. *)
Definition beyond_2_53 : list api_request :=
  [PostAccounts (VObj [("userId", VStr "u7")]);
   PostCredit "a1" (VObj [("amount", VNum (of_int 9007199254740992))]);
   PostCredit "a1" (VObj [("amount", VNum (of_int 1))])].

(** The clock reading of [Mock.world]. *)
Definition noon : string := "2026-02-11T10:00:00.000Z".

(** The identity mock as it is, and a catalog behind a proxy that
    answers every request with 404 and an HTML page. *)
Definition catalog_behind_proxy : env Mock.servers :=
  Env Mock.servers Mock.identity_origin Mock.catalog_origin
    (λ r m,
       match Mock.strip Mock.catalog_origin (req_url r) with
       | Some _ =>
           (Responds (HttpResponse 404 "Not Found"
                        (BadText "Unexpected token '<'")), m)
       | None => Mock.network r m
       end)
    (λ _, noon).

(** The user the identity mock creates first for Ada. *)
Definition ada_user : value :=
  VObj [("id", VStr "u1"); ("name", VStr "Ada");
        ("email", VStr "ada@example.com")].

(** One change of the machine state: a request went out and the outside
    moved on, an account was created, or an account that exists was
    credited. *)
Inductive step {W : Type} : state W → state W → Prop :=
  | step_fetch s r w :
      step s (State (store s) w (trace s ++ [Fetched r]))
  | step_create s t u ty :
      step s (State (snd (createAccount_in t u ty (store s))) (outside s)
                (trace s ++ [Created (fst (createAccount_in t u ty (store s)))]))
  | step_credit s i n :
      is_Some (accountsById (store s) !! i) →
      step s (State (snd (applyCredit_in i n (store s))) (outside s)
                (trace s ++ [Credited i n])).

(** How the account map, the counter and the accounts created so far
    stand to one another. *)
Record numbered {W : Type} (s : state W) : Prop := Numbered {
  counter_started : (1 ≤ accountCounter (store s))%nat;
  ids_all_issued : ∀ k,
    (1 ≤ k < accountCounter (store s))%nat →
    is_Some (accountsById (store s) !! account_id k);
  ids_from_one : ∀ i,
    is_Some (accountsById (store s) !! i) →
    ∃ k, (1 ≤ k < accountCounter (store s))%nat ∧ i = account_id k;
  stored_under_id : ∀ i a,
    accountsById (store s) !! i = Some a → id a = i;
  created_stored : ∀ a,
    Created a ∈ trace s ↔ accountsById (store s) !! id a = Some a
}.

(** ** The definitions on small inputs *)

Example to_string_array :
  to_string (VArr [VNum (of_int 1); VNull; VStr "x"; VArr [VBool true; VNum NInf]])
  = "1,,x,true,-Infinity".
Proof. reflexivity. Qed.

Example or_else_NaN : or_else (VNum NaN) (VNum (Fin 0)) = VNum (Fin 0).
Proof. reflexivity. Qed.

Example infinities_cancel_to_NaN : num_add (num_add (Fin 0) PInf) NInf = NaN.
Proof. reflexivity. Qed.

Example num_add_rounds :
  num_add (of_int (2 ^ 53)) (of_int 1) = of_int (2 ^ 53) ∧
  num_add (of_int (2 ^ 53)) (of_int 3) = of_int (2 ^ 53 + 4) ∧
  num_add (of_int (- 2 ^ 54)) (of_int (-5)) = of_int (- (2 ^ 54 + 4)) ∧
  num_add (of_int (2 ^ 53)) (of_int (-1)) = of_int (2 ^ 53 - 1) ∧
  num_add (of_int 100) (of_int (-250)) = of_int (-150) ∧
  num_add (dyadic 1 (-1)) (dyadic 1 (-2)) = dyadic 3 (-2) ∧
  num_add (dyadic 3602879701896397 (-55)) (dyadic 3602879701896397 (-54))
  = dyadic 1351079888211149 (-52) ∧
  num_add (dyadic 1 (-1074)) (dyadic (-1) (-1074)) = Fin 0.
Proof. by vm_compute. Qed.

Example num_add_overflows :
  num_add (of_int (2 ^ 1023)) (of_int (2 ^ 1023)) = PInf ∧
  num_add (of_int (- 2 ^ 1023)) (of_int (- 2 ^ 1023)) = NInf ∧
  num_add (dyadic (2 ^ 53 - 1) 971) (dyadic 1 970) = PInf ∧
  num_add (dyadic (2 ^ 53 - 1) 971) (dyadic 1 969) = dyadic (2 ^ 53 - 1) 971 ∧
  num_add (num_add (num_add (Fin 0) (of_int (2 ^ 1023))) (of_int (2 ^ 1023)))
    NInf
  = NaN.
Proof. by vm_compute. Qed.

Example num_to_string_integers :
  num_to_string (of_int (-42)) = "-42" ∧
  num_to_string (of_int (2 ^ 53)) = "9007199254740992" ∧
  num_to_string (of_int (2 ^ 64)) = "18446744073709552000" ∧
  num_to_string (of_int (10 ^ 21)) = "1e+21" ∧
  num_to_string (of_int (2 ^ 70)) = "1.1805916207174113e+21" ∧
  num_to_string (dyadic (- (2 ^ 53 - 1)) 971) = "-1.7976931348623157e+308".
Proof. by vm_compute. Qed.

Example num_to_string_fractions :
  num_to_string (dyadic 3 (-1)) = "1.5" ∧
  num_to_string (dyadic 3602879701896397 (-55)) = "0.1" ∧
  num_to_string (dyadic 1351079888211149 (-52)) = "0.30000000000000004" ∧
  num_to_string (dyadic 1 (-20)) = "9.5367431640625e-7" ∧
  num_to_string (dyadic 1 (-1074)) = "5e-324".
Proof. by vm_compute. Qed.

Example encodeURIComponent_reserved :
  encodeURIComponent (VStr "a/b?c d") = "a%2Fb%3Fc%20d".
Proof. reflexivity. Qed.

Example encodeURIComponent_unreserved :
  encodeURIComponent (VStr "p-1_(x).~!*'") = "p-1_(x).~!*'".
Proof. reflexivity. Qed.

Example encodeURIComponent_object :
  encodeURIComponent (VObj [("id", VNum (of_int 7))]) = "%5Bobject%20Object%5D".
Proof. reflexivity. Qed.

Example third_account_id : account_id 3 = "a3".
Proof. reflexivity. Qed.

Example same_value_zero_objects :
  same_value_zero (VObj []) (VObj []) = false ∧
  same_value_zero (VNum NaN) (VNum NaN) = true ∧
  same_value_zero (VStr "5") (VNum (of_int 5)) = false.
Proof. by repeat split. Qed.

Example missing_type_defaults :
  field_default (VObj [("userId", VStr "u1")]) "type" (VStr "standard")
  = VStr "standard" ∧
  field_default (VObj [("userId", VStr "u1"); ("type", VNull)]) "type"
    (VStr "standard") = VNull.
Proof. by split. Qed.

Example receive_404 :
  receive (HttpResponse 404 "Not Found"
             (JsonText (VObj [("error", VStr "product not found")])))
  = Throw (JsError "product not found" (Some 404)).
Proof. reflexivity. Qed.

Example receive_status_text :
  receive (HttpResponse 502 "Bad Gateway" EmptyText)
  = Throw (JsError "Bad Gateway" (Some 502)).
Proof. reflexivity. Qed.

Example receive_null :
  receive (HttpResponse 200 "OK" (JsonText VNull)) = Return VNull ∧
  field_or_self VNull "user"
  = Throw (JsError "Cannot read properties of null (reading 'user')" None).
Proof. by split. Qed.

Example matchPath_assign :
  Mock.matchPath "/products/p%201/assign" "/products/:productId/assign"
  = Some [("productId", "p%201")] ∧
  Mock.matchPath "/products//assign" "/products/:productId/assign" = None ∧
  Mock.matchPath "/users/u1/" "/users/:userId" = Some [("userId", "u1")].
Proof. by repeat split. Qed.

Example request_target_dots :
  Mock.request_target "/products/../assign" = "/assign" ∧
  Mock.request_target "/products/./assign" = "/products/assign" ∧
  Mock.request_target "/users/.." = "/" ∧
  Mock.request_target "/users/u1" = "/users/u1".
Proof. by repeat split. Qed.

Example wire_drops :
  Mock.wire (VObj [("name", VNum PInf); ("tags", VArr [VUndef; VNum (of_int 2)]);
                   ("gone", VUndef)])
  = VObj [("name", VNull); ("tags", VArr [VNull; VNum (of_int 2)])].
Proof. reflexivity. Qed.

(** ** Basic facts *)

Lemma num_add_zero_l n : num_add (Fin 0) n = n.
Proof. by destruct n. Qed.

Lemma balance_or_zero_lookup l i n :
  balancesByAccountId l !! i = Some n → n ≠ NaN → balance_or_zero l i = n.
Proof.
  intros Hl Hn. unfold balance_or_zero. rewrite Hl.
  destruct n as [[| |]| | |]; simpl; done.
Qed.

Lemma same_value_zero_eq a b : same_value_zero a b = true → a = b.
Proof.
  destruct a, b; simpl; try discriminate; try done.
  - intros ->%Bool.eqb_prop. done.
  - match goal with n : number, m : number |- _ => destruct n, m end;
      simpl; try discriminate; try done.
    intros ->%Z.eqb_eq. done.
  - intros ->%String.eqb_eq. done.
Qed.

Lemma vmap_get_set {V} (m : list (value * V)) k v u :
  vmap_get (vmap_set m k v) u
  = if same_value_zero k u then Some v else vmap_get m u.
Proof.
  induction m as [|[k' v'] m IH]; simpl.
  - done.
  - destruct (same_value_zero k' k) eqn:Hk; simpl.
    + apply same_value_zero_eq in Hk as ->.
      by destruct (same_value_zero k u).
    + rewrite IH. destruct (same_value_zero k' u) eqn:Hu; [|done].
      destruct (same_value_zero k u) eqn:Hku; [|done].
      pose proof (same_value_zero_eq _ _ Hu) as ->.
      pose proof (same_value_zero_eq _ _ Hku) as ->. congruence.
Qed.

Lemma account_id_inj n m : account_id n = account_id m → n = m.
Proof.
  unfold account_id. intros H.
  change (String "a" (pretty n) = String "a" (pretty m)) in H.
  injection H as H. by apply (inj pretty) in H.
Qed.

Lemma credits_to_app i t1 t2 :
  credits_to i (t1 ++ t2) = credits_to i t1 ++ credits_to i t2.
Proof.
  induction t1 as [|[| |j n] t1 IH]; simpl; try done.
  destruct (String.eqb j i); simpl; by rewrite IH.
Qed.

Lemma created_for_app u t1 t2 :
  created_for u (t1 ++ t2) = created_for u t1 ++ created_for u t2.
Proof.
  induction t1 as [|[|a|] t1 IH]; simpl; try done.
  destruct (same_value_zero (userId a) u); simpl; by rewrite IH.
Qed.

Lemma total_snoc ds d : total (ds ++ [d]) = num_add (total ds) d.
Proof. unfold total. by rewrite fold_left_app. Qed.

(** ** The ledger stays consistent *)

Section Consistency.
Context {W : Type}.
Implicit Types (s : state W) (l : ledger).

Lemma consistent_boot (w : W) : consistent (boot w).
Proof.
  split; simpl; try done.
  - intros i [a Ha]. by rewrite lookup_empty in Ha.
  - intros i. split; intros [a Ha]; by rewrite lookup_empty in Ha.
  - intros i [a Ha]. by rewrite lookup_empty in Ha.
Qed.

Lemma consistent_fetch s r (w : W) :
  consistent s → consistent (State (store s) w (trace s ++ [Fetched r])).
Proof.
  intros [H1 H2 H3 H4 H5 H6]. split; simpl; try done.
  - intros i. rewrite credits_to_app, app_nil_r. apply H4.
  - intros i. rewrite credits_to_app, app_nil_r. apply H5.
  - intros u. rewrite created_for_app, app_nil_r. apply H6.
Qed.

Lemma fresh_account_id s :
  consistent s →
  accountsById (store s) !! account_id (accountCounter (store s)) = None.
Proof.
  intros Hs. destruct (accountsById _ !! _) eqn:Hl; [|done].
  destruct (ids_issued s Hs _ (mk_is_Some _ _ Hl)) as [n [Hn Hlt]].
  apply account_id_inj in Hn. lia.
Qed.

Lemma consistent_create s t u ty :
  consistent s →
  consistent (State (snd (createAccount_in t u ty (store s))) (outside s)
                (trace s ++ [Created (fst (createAccount_in t u ty (store s)))])).
Proof.
  intros Hs. pose proof (fresh_account_id s Hs) as Hfresh.
  destruct Hs as [H1 H2 H3 H4 H5 H6].
  set (new := account_id (accountCounter (store s))) in *.
  split; simpl; fold new.
  - intros i. destruct (decide (new = i)) as [<-|Hne].
    + intros _. exists (accountCounter (store s)). split; [done|lia].
    + rewrite lookup_insert_ne by done. intros Hi.
      destruct (H1 i Hi) as [n [Hn Hlt]]. exists n. split; [done|lia].
  - intros i a. destruct (decide (new = i)) as [<-|Hne].
    + rewrite lookup_insert_eq. by intros [= <-].
    + rewrite lookup_insert_ne by done. apply H2.
  - intros i. destruct (decide (new = i)) as [<-|Hne].
    + rewrite !lookup_insert_eq. split; eauto.
    + rewrite !lookup_insert_ne by done. apply H3.
  - intros i. rewrite credits_to_app, app_nil_r. intros Hc.
    destruct (decide (new = i)) as [<-|Hne].
    + rewrite lookup_insert_eq. eauto.
    + rewrite lookup_insert_ne by done. by apply H4.
  - intros i. rewrite credits_to_app, app_nil_r.
    destruct (decide (new = i)) as [<-|Hne].
    + intros _ _. rewrite lookup_insert_eq.
      destruct (credits_to new (trace s)) eqn:Hc; [done|].
      assert (is_Some (accountsById (store s) !! new)) as [a Ha].
      { apply H4. by rewrite Hc. }
      congruence.
    + rewrite !lookup_insert_ne by done. apply H5.
  - intros v. rewrite vmap_get_set, created_for_app. simpl.
    destruct (same_value_zero u v) eqn:Huv.
    + apply same_value_zero_eq in Huv as ->. simpl. by rewrite H6.
    + by rewrite app_nil_r.
Qed.

Lemma total_not_NaN ds d : total (ds ++ [d]) ≠ NaN → total ds ≠ NaN.
Proof. rewrite total_snoc. intros H Hd. apply H. by rewrite Hd. Qed.

Lemma consistent_credit s i n :
  consistent s →
  is_Some (accountsById (store s) !! i) →
  consistent (State (snd (applyCredit_in i n (store s))) (outside s)
                (trace s ++ [Credited i n])).
Proof.
  intros [H1 H2 H3 H4 H5 H6] Hi. split; simpl; try done.
  - intros j. destruct (decide (i = j)) as [<-|Hne].
    + rewrite lookup_insert_eq. split; eauto.
    + rewrite lookup_insert_ne by done. apply H3.
  - intros j. rewrite credits_to_app. simpl.
    destruct (String.eqb_spec i j) as [<-|Hne]; [done|].
    rewrite app_nil_r. apply H4.
  - intros j. rewrite credits_to_app. simpl.
    destruct (String.eqb_spec i j) as [<-|Hne].
    + intros _ Hsum. rewrite lookup_insert_eq, total_snoc. do 2 f_equal.
      apply balance_or_zero_lookup.
      * apply H5; [done|]. by apply total_not_NaN with n.
      * by apply total_not_NaN with n.
    + rewrite app_nil_r, lookup_insert_ne by done. apply H5.
  - intros u. rewrite created_for_app, app_nil_r. apply H6.
Qed.

End Consistency.

(** ** Running the handler monad *)

Section Runs.
Context {W : Type} (E : env W).
Implicit Types (s : state W) (P : state W → Prop).

Lemma bind_run {A B} (m : M W A) (k : A → M W B) s :
  (m ≫= k) s = match m s with
                | (Return a, s') => k a s'
                | (Throw e, s') => (Throw e, s')
                end.
Proof. done. Qed.

Lemma fetchJson_run r s answer w :
  fetch E r (outside s) = (answer, w) →
  fetchJson E r s
  = (settle answer, State (store s) w (trace s ++ [Fetched r])).
Proof. intros H. unfold fetchJson. by rewrite H. Qed.

Lemma createAccount_run u ty s :
  createAccount E u ty s
  = (Return (fst (createAccount_in (clock E (outside s)) u ty (store s))),
     State (snd (createAccount_in (clock E (outside s)) u ty (store s)))
       (outside s)
       (trace s ++ [Created (fst (createAccount_in (clock E (outside s)) u ty
                                    (store s)))])).
Proof. done. Qed.

Lemma applyCredit_run i n s :
  applyCredit i n s
  = (Return (fst (applyCredit_in i n (store s))),
     State (snd (applyCredit_in i n (store s))) (outside s)
       (trace s ++ [Credited i n])).
Proof. done. Qed.

Lemma runs_ret {A} P (a : A) (Q : A → state W → Prop) :
  (∀ s, P s → Q a s) → runs P (ret a) Q.
Proof. intros H s Hs HP. simpl. split; [done|]. intros ? [= <-]. auto. Qed.

Lemma runs_lift {A} P (o : outcome A) (Q : A → state W → Prop) :
  (∀ a s, o = Return a → P s → Q a s) → runs P (lift o) Q.
Proof. intros H s Hs HP. simpl. split; [done|]. intros a ->. auto. Qed.

Lemma runs_read {A} P (f : ledger → A) (Q : A → state W → Prop) :
  (∀ s, P s → Q (f (store s)) s) → runs P (read f) Q.
Proof. intros H s Hs HP. simpl. split; [done|]. intros ? [= <-]. auto. Qed.

Lemma runs_bind {A B} P (m : M W A) (R : A → state W → Prop)
    (k : A → M W B) (Q : B → state W → Prop) :
  runs P m R → (∀ a, runs (R a) (k a) Q) → runs P (m ≫= k) Q.
Proof.
  intros Hm Hk s Hs HP. rewrite bind_run.
  destruct (Hm s Hs HP) as [Hc HR].
  destruct (m s) as [[a|e] s']; simpl in *; [|done].
  apply Hk; auto.
Qed.

Lemma runs_try_catch {A} P (m : M W A) (h : js_error → M W A)
    (Q : A → state W → Prop) :
  runs P m Q → (∀ e, runs (λ _, True) (h e) Q) → runs P (try_catch m h) Q.
Proof.
  intros Hm Hh s Hs HP. unfold try_catch.
  destruct (Hm s Hs HP) as [Hc HQ].
  destruct (m s) as [[a|e] s']; simpl in *; [done|].
  by apply Hh.
Qed.

Lemma runs_fetchJson P r : runs P (fetchJson E r) (λ _ _, True).
Proof.
  intros s Hs _. unfold fetchJson.
  destruct (fetch E r (outside s)) as [answer w]. simpl.
  split; [by apply consistent_fetch|done].
Qed.

Lemma runs_createAccount P u ty :
  runs P (createAccount E u ty)
    (λ a s, is_Some (accountsById (store s) !! id a)).
Proof.
  intros s Hs _. rewrite createAccount_run. simpl.
  split; [by apply consistent_create|].
  intros a [= <-]. rewrite lookup_insert_eq. eauto.
Qed.

Lemma runs_applyCredit i n :
  runs (λ s, is_Some (accountsById (store s) !! i)) (applyCredit i n)
    (λ _ _, True).
Proof.
  intros s Hs Hi. rewrite applyCredit_run. simpl.
  split; [by apply consistent_credit|done].
Qed.

Lemma runs_on_error e (Q : response → state W → Prop) :
  (∀ r s, Q r s) → runs (λ _, True) (on_error e) Q.
Proof. intros HQ. apply runs_ret. auto. Qed.

Lemma runs_post_accounts body :
  runs (λ _, True) (post_accounts E body) (λ _ _, True).
Proof.
  unfold post_accounts.
  apply runs_try_catch; [|intros; by apply runs_on_error].
  cbv zeta. destruct (negb _); [by apply runs_ret|].
  eapply runs_bind.
  { unfold ensureUserExists. eapply runs_bind; [apply runs_fetchJson|].
    intros data. apply runs_lift. instantiate (1 := λ _ _, True). done. }
  intros ?. eapply runs_bind; [apply runs_createAccount|].
  intros account. by apply runs_ret.
Qed.

Lemma runs_get_account i :
  runs (λ _, True) (get_account (W:=W) i) (λ _ _, True).
Proof.
  eapply runs_bind; [by apply runs_read with (Q := λ _ _, True)|].
  intros [a|]; [|by apply runs_ret].
  eapply runs_bind; [by apply runs_read with (Q := λ _ _, True)|].
  intros b. by apply runs_ret.
Qed.

Lemma runs_get_accounts query :
  runs (λ _, True) (get_accounts (W:=W) query) (λ _ _, True).
Proof.
  unfold get_accounts. destruct (negb _); [by apply runs_ret|].
  eapply runs_bind; [by apply runs_read with (Q := λ _ _, True)|].
  intros b. by apply runs_ret.
Qed.

Lemma runs_post_credit i body :
  runs (λ _, True) (post_credit (W:=W) i body) (λ _ _, True).
Proof.
  eapply runs_bind.
  { apply runs_read
      with (Q := λ found s, found = accountsById (store s) !! i). done. }
  intros [a|]; [|by apply runs_ret].
  cbv zeta. destruct (numeric _) as [n|]; [|by apply runs_ret].
  eapply runs_bind with (R := λ _ _, True); [|intros b; by apply runs_ret].
  intros s Hs Ha. apply runs_applyCredit; [done|].
  symmetry in Ha. rewrite (ids_match s Hs _ _ Ha). eauto.
Qed.

Lemma runs_onboard name email productId initialCredit :
  runs (λ _, True) (onboard E name email productId initialCredit)
    (λ _ _, True).
Proof.
  unfold onboard. destruct (_ || _); [by apply runs_ret|].
  eapply runs_bind; [apply runs_fetchJson|]. intros userResponse.
  eapply runs_bind; [by apply runs_lift with (Q := λ _ _, True)|].
  intros user.
  eapply runs_bind; [by apply runs_lift with (Q := λ _ _, True)|].
  intros user_id.
  eapply runs_bind; [apply runs_createAccount|]. intros account.
  eapply runs_bind with (R := λ _ _, True).
  { destruct (numeric initialCredit) as [n|]; [|by apply runs_ret].
    eapply runs_bind; [apply runs_applyCredit|]. intros ?. by apply runs_ret. }
  intros ?. eapply runs_bind; [apply runs_fetchJson|]. intros assignmentResponse.
  eapply runs_bind; [by apply runs_read with (Q := λ _ _, True)|].
  intros balance.
  eapply runs_bind; [by apply runs_lift with (Q := λ _ _, True)|].
  intros assignment. by apply runs_ret.
Qed.

Lemma runs_post_onboard body :
  runs (λ _, True) (post_onboard E body) (λ _ _, True).
Proof.
  apply runs_try_catch; [|intros; by apply runs_on_error].
  apply runs_onboard.
Qed.

Lemma consistent_handle r s :
  consistent s → consistent (snd (handle E r s)).
Proof.
  intros Hs. destruct r; simpl.
  - by apply (runs_post_accounts body s).
  - by apply (runs_get_account param_id s).
  - by apply (runs_get_accounts query s).
  - by apply (runs_post_credit param_id body s).
  - by apply (runs_post_onboard body s).
  - done.
Qed.

Lemma consistent_serve rs s :
  consistent s → consistent (serve E rs s).
Proof.
  revert s. induction rs as [|r rs IH]; intros s Hs; simpl; [done|].
  apply IH. by apply consistent_handle.
Qed.

End Runs.

(** ** The onboarding, path by path *)

Section Onboarding.
Context {W : Type} (E : env W).
Implicit Types (s : state W).

Lemma field_or_self_get_prop data k u k' :
  field_or_self data k = Return u → get_prop u k' = Return (field u k').
Proof.
  unfold field_or_self. change (mbind ?f ?o) with (outcome_bind _ _ f o).
  destruct (get_prop data k) as [v|e] eqn:Hg; simpl; [|discriminate].
  intros [= <-]. unfold or_else. destruct (truthy v) eqn:Ht.
  - by destruct v.
  - by destruct data.
Qed.

Lemma yields_eq answer k :
  yields answer k = match settle answer with
                    | Return data => field_or_self data k
                    | Throw e => Throw e
                    end.
Proof. done. Qed.

(** The whole of [onboard] once the three required values are there,
    in terms of the two answers of the outside. *)
Lemma onboard_run name email productId initialCredit s answer1 w1 :
  truthy name = true → truthy email = true → truthy productId = true →
  fetch E (create_user_request E name email) (outside s) = (answer1, w1) →
  onboard E name email productId initialCredit s
  = let t1 := trace s ++ [Fetched (create_user_request E name email)] in
    match yields answer1 "user" with
    | Throw e => (Throw e, State (store s) w1 t1)
    | Return user =>
        let created :=
          createAccount_in (clock E w1) (field user "id") (VStr "standard")
            (store s) in
        let account := fst created in
        let t2 := t1 ++ [Created account] in
        let '(l, t3) :=
          match numeric initialCredit with
          | Some n => (snd (applyCredit_in (id account) n (snd created)),
                       t2 ++ [Credited (id account) n])
          | None => (snd created, t2)
          end in
        let request2 := assign_request E productId (id account) in
        let '(answer2, w2) := fetch E request2 w1 in
        let s2 := State l w2 (t3 ++ [Fetched request2]) in
        match yields answer2 "assignment" with
        | Throw e => (Throw e, s2)
        | Return assignment =>
            (Return (Response 201
                       (ReplyOnboard user account assignment
                          (balance_or_zero l (id account)))), s2)
        end
    end.
Proof.
  intros Hn He Hp H1. unfold onboard. rewrite Hn, He, Hp. cbn [negb orb].
  rewrite bind_run, (fetchJson_run E _ _ _ _ H1).
  rewrite yields_eq.
  destruct (settle answer1) as [userResponse|e]; simpl; [|done].
  rewrite bind_run. unfold lift at 1.
  destruct (field_or_self userResponse "user") as [user|e] eqn:Hu; [|done].
  rewrite bind_run. unfold lift at 1.
  rewrite (field_or_self_get_prop _ _ _ "id" Hu).
  rewrite bind_run, createAccount_run. cbn [outside store trace].
  set (created := createAccount_in _ _ _ _).
  rewrite bind_run.
  destruct (numeric initialCredit) as [n|].
  - rewrite bind_run, applyCredit_run. cbn [outside store trace].
    unfold ret at 1. rewrite bind_run. unfold fetchJson.
    cbn [outside store trace].
    destruct (fetch E _ w1) as [answer2 w2]. rewrite yields_eq.
    destruct (settle answer2) as [assignmentResponse|e]; simpl. 2: done.
    rewrite bind_run. unfold read at 1. rewrite bind_run. unfold lift at 1.
    by destruct (field_or_self assignmentResponse "assignment").
  - unfold ret at 1. rewrite bind_run. unfold fetchJson.
    cbn [outside store trace].
    destruct (fetch E _ w1) as [answer2 w2]. rewrite yields_eq.
    destruct (settle answer2) as [assignmentResponse|e]; simpl; [|done].
    rewrite bind_run. unfold read at 1. rewrite bind_run. unfold lift at 1.
    by destruct (field_or_self assignmentResponse "assignment").
Qed.

End Onboarding.

(** ** Properties of the handlers *)

Section Properties.
Context {W : Type} (E : env W).
Implicit Types (s : state W) (w : W).

Lemma post_onboard_run body s :
  post_onboard E body s
  = let b := or_else body (VObj []) in
    match onboard E (field b "name") (field b "email") (field b "productId")
            (field_default b "initialCredit" (VNum (Fin 0))) s with
    | (Return r, s') => (Return r, s')
    | (Throw e, s') =>
        (Return (Response (status_or_500 e) (ReplyError (err_message e))), s')
    end.
Proof. done. Qed.

Lemma post_accounts_run body s answer w :
  let b := or_else body (VObj []) in
  let uid := field b "userId" in
  truthy uid = true →
  fetch E (Request "GET"
             (IDENTITY_BASE_URL E +:+ "/users/" +:+ encodeURIComponent uid)
             None) (outside s) = (answer, w) →
  post_accounts E body s
  = let t1 := trace s ++ [Fetched (Request "GET"
                 (IDENTITY_BASE_URL E +:+ "/users/" +:+ encodeURIComponent uid)
                 None)] in
    match yields answer "user" with
    | Throw e =>
        (Return (Response (status_or_500 e) (ReplyError (err_message e))),
         State (store s) w t1)
    | Return _ =>
        let created :=
          createAccount_in (clock E w) uid
            (field_default b "type" (VStr "standard")) (store s) in
        (Return (Response 201 (ReplyAccount (fst created))),
         State (snd created) w (t1 ++ [Created (fst created)]))
    end.
Proof.
  intros b uid Hu H1. unfold post_accounts, try_catch. fold b. fold uid.
  rewrite Hu. cbn [negb]. rewrite bind_run. unfold ensureUserExists.
  rewrite bind_run, (fetchJson_run E _ _ _ _ H1), yields_eq.
  destruct (settle answer) as [data|e]; simpl; [|done].
  by destruct (field_or_self data "user").
Qed.

Lemma opening_balance_stored ic (a : Account) l :
  balancesByAccountId l !! id a = Some (Fin 0) →
  balancesByAccountId
    (match numeric ic with
     | Some n => snd (applyCredit_in (id a) n l)
     | None => l
     end) !! id a = Some (opening_balance ic).
Proof.
  intros Hl. unfold opening_balance. destruct (numeric ic) as [n|]; [|done].
  simpl. rewrite lookup_insert_eq. unfold balance_or_zero. rewrite Hl.
  by rewrite num_add_zero_l.
Qed.

Lemma opening_balance_read ic l i :
  balancesByAccountId l !! i = Some (opening_balance ic) →
  balance_or_zero l i = opening_balance ic.
Proof.
  intros Hl. unfold balance_or_zero. rewrite Hl. unfold opening_balance, numeric.
  destruct ic as [| | |[[| |]| | |]| | |]; done.
Qed.

Lemma get_account_run (i : string) s a n :
  accountsById (store s) !! i = Some a → id a = i →
  balance_or_zero (store s) i = n →
  get_account i s = (Return (Response 200 (ReplyAccountBalance a n)), s).
Proof.
  intros Ha Hi Hn. unfold get_account. rewrite bind_run. unfold read at 1.
  rewrite Ha, bind_run. unfold read at 1. by rewrite Hi, Hn.
Qed.

Lemma status_or_500_upstream msg st :
  st ≠ 0 → status_or_500 (JsError msg (Some st)) = st.
Proof. intros H. unfold status_or_500. simpl. by destruct (Z.eqb_spec st 0). Qed.

Lemma surfaces_thrown answer k e :
  yields answer k = Throw e →
  surfaces answer (Response (status_or_500 e) (ReplyError (err_message e))).
Proof.
  rewrite yields_eq. intros Hy. split.
  - intros res data -> Hok Hst Hparse Hnull Hundef _. simpl in Hy.
    unfold receive in Hy. rewrite Hparse, Hok in Hy. simpl in Hy.
    assert (get_prop data "error" = Return (field data "error")) as Hg
      by by destruct data.
    rewrite Hg in Hy. simpl in Hy. injection Hy as <-.
    by rewrite status_or_500_upstream.
  - intros msg ->. simpl in Hy. by injection Hy as <-.
Qed.

Lemma surfaces_returned answer k v r :
  yields answer k = Return v → surfaces answer r.
Proof.
  rewrite yields_eq. intros Hy. split.
  - intros res data -> Hok Hst Hparse Hnull Hundef _. simpl in Hy.
    unfold receive in Hy. rewrite Hparse, Hok in Hy. simpl in Hy.
    assert (get_prop data "error" = Return (field data "error")) as Hg
      by by destruct data.
    by rewrite Hg in Hy.
  - by intros msg ->.
Qed.

(** C5: an onboarding request in which [name], [email] or [productId]
    is missing (or otherwise falsy) is answered 400, and the machine
    state is left as it was: no request went downstream (the trace and
    the outside are unchanged) and the ledger is untouched. *)
Theorem onboard_missing_field_rejected body s :
  let b := or_else body (VObj []) in
  truthy (field b "name") = false ∨
  truthy (field b "email") = false ∨
  truthy (field b "productId") = false →
  post_onboard E body s
  = (Return (Response 400
               (ReplyError "name, email, and productId are required")), s).
Proof.
  intros b H. rewrite post_onboard_run. fold b. unfold onboard.
  assert (negb (truthy (field b "name")) || negb (truthy (field b "email"))
          || negb (truthy (field b "productId")) = true) as ->; [|done].
  destruct H as [-> | [-> | ->]]; simpl; auto using orb_true_r.
  by rewrite orb_true_r.
Qed.

(** The catch block after a failed createUser: when the call throws the
    error [e], the operation ends there: the reply carries the status of
    [e] (500 when it has none) and its message, the only request sent is
    the one to the identity service, and the ledger is the one the
    request found: no account and no balance entry were created.
    Which [e] a response of the identity service becomes is the matter
    of [receive]. *)
Theorem onboard_create_user_failure body s answer w e :
  let b := or_else body (VObj []) in
  let name := field b "name" in
  let email := field b "email" in
  truthy name = true → truthy email = true →
  truthy (field b "productId") = true →
  fetch E (create_user_request E name email) (outside s) = (answer, w) →
  yields answer "user" = Throw e →
  post_onboard E body s
  = (Return (Response (status_or_500 e) (ReplyError (err_message e))),
     State (store s) w (trace s ++ [Fetched (create_user_request E name email)])).
Proof.
  intros b name email Hn He Hp H1 Hy. subst name email b.
  rewrite post_onboard_run. cbv zeta.
  rewrite (onboard_run E _ _ _ _ _ _ _ Hn He Hp H1).
  cbv zeta. by rewrite Hy.
Qed.

(** The catch block after a failed assignProduct: when the createUser
    call yields a user and the assignProduct call then throws the error
    [e], the reply carries the status of [e] (500 when it has none) and
    its message, and nothing is rolled back: the account created for
    the user is in the ledger with the balance credited to it, and
    [GET /accounts/:id] returns it with that balance.  Which [e] a
    response of the catalog becomes is the matter of [receive]. *)
Theorem onboard_partial_commit body s answer1 w1 user answer2 w2 e :
  let b := or_else body (VObj []) in
  let name := field b "name" in
  let email := field b "email" in
  let productId := field b "productId" in
  let initialCredit := field_default b "initialCredit" (VNum (Fin 0)) in
  let account :=
    mkAccount (account_id (accountCounter (store s))) (field user "id")
      (VStr "standard") (clock E w1) in
  truthy name = true → truthy email = true → truthy productId = true →
  fetch E (create_user_request E name email) (outside s) = (answer1, w1) →
  yields answer1 "user" = Return user →
  fetch E (assign_request E productId (id account)) w1 = (answer2, w2) →
  yields answer2 "assignment" = Throw e →
  ∃ s',
    post_onboard E body s
    = (Return (Response (status_or_500 e) (ReplyError (err_message e))), s') ∧
    accountsById (store s') !! id account = Some account ∧
    balancesByAccountId (store s') !! id account
    = Some (opening_balance initialCredit) ∧
    get_account (id account) s'
    = (Return (Response 200
                 (ReplyAccountBalance account (opening_balance initialCredit))),
       s').
Proof.
  intros b name email productId initialCredit account Hn He Hp H1 Hu H2 Hy.
  subst name email productId b.
  rewrite post_onboard_run. cbv zeta.
  rewrite (onboard_run E _ _ _ _ _ _ _ Hn He Hp H1).
  fold initialCredit. cbv zeta. rewrite Hu.
  change (fst (createAccount_in _ _ _ _)) with account.
  set (l1 := snd (createAccount_in _ _ _ _)).
  assert (balancesByAccountId l1 !! id account = Some (Fin 0)) as Hb
    by apply lookup_insert_eq.
  assert (accountsById l1 !! id account = Some account) as Ha
    by apply lookup_insert_eq.
  pose proof (opening_balance_stored initialCredit account l1 Hb) as Hob.
  destruct (numeric initialCredit) as [n|]; rewrite H2, Hy;
    eexists; (split; [reflexivity|]); cbn [store];
    (split; [exact Ha|]); (split; [exact Hob|]);
    (apply get_account_run; cbn [store];
     [exact Ha|done|exact (opening_balance_read _ _ _ Hob)]).
Qed.

(** C8: crediting an id that is not in the ledger is answered 404 and
    leaves the machine state, hence every map of the ledger, as it
    was. *)
Theorem credit_unknown_account (i : string) body s :
  accountsById (store s) !! i = None →
  post_credit i body s
  = (Return (Response 404 (ReplyError "account not found")), s).
Proof.
  intros H. unfold post_credit. rewrite bind_run. unfold read. by rewrite H.
Qed.

End Properties.

(** ** The catalog mock echoes the path segment it was sent *)

Section Catalog.
Import Mock.

Lemma has_app c a b : has c (a +:+ b) = has c a || has c b.
Proof. induction a as [|x a IH]; simpl; [done|]. by rewrite IH, orb_assoc. Qed.

Lemma split_on_none c s : has c s = false → split_on c s = [s].
Proof.
  induction s as [|x s IH]; simpl; [done|].
  intros [Hx Hs]%orb_false_elim. rewrite Hx. by rewrite (IH Hs).
Qed.

Lemma split_on_app c a b :
  has c a = false → split_on c (a +:+ String c b) = a :: split_on c b.
Proof.
  induction a as [|x a IH]; simpl.
  - intros _. by rewrite Ascii.eqb_refl.
  - intros [Hx Ha]%orb_false_elim. rewrite Hx. by rewrite (IH Ha).
Qed.

Lemma unreserved_plain c :
  unreserved c = true → Ascii.eqb c "/" = false ∧ Ascii.eqb c "?" = false.
Proof. destruct c as [[] [] [] [] [] [] [] []]; vm_compute; by try split. Qed.

Lemma percent_encode_plain c :
  has "/" (percent_encode c) = false ∧ has "?" (percent_encode c) = false.
Proof. destruct c as [[] [] [] [] [] [] [] []]; vm_compute; by split. Qed.

Lemma encode_bytes_plain s :
  has "/" (encode_bytes s) = false ∧ has "?" (encode_bytes s) = false.
Proof.
  induction s as [|c s [IH1 IH2]]; simpl; [done|].
  rewrite !has_app, IH1, IH2, !orb_false_r.
  destruct (unreserved c) eqn:Hc.
  - simpl. rewrite !orb_false_r. by apply unreserved_plain.
  - apply percent_encode_plain.
Qed.

Lemma encode_bytes_unreserved s : all_unreserved s = true → encode_bytes s = s.
Proof.
  induction s as [|c s IH]; simpl; [done|].
  intros [Hc Hs]%andb_prop. by rewrite Hc, (IH Hs).
Qed.

Lemma request_target_products enc :
  has "/" enc = false →
  request_target ("/products/" +:+ enc +:+ "/assign")
  = if String.eqb enc ".." then "/assign"
    else if String.eqb enc "." then "/products/assign"
    else "/products/" +:+ enc +:+ "/assign".
Proof.
  intros He. unfold request_target.
  change (slice1 ("/products/" +:+ enc +:+ "/assign"))
    with ("products" +:+ String "/" (enc +:+ String "/" "assign")).
  rewrite split_on_app by done. rewrite split_on_app by done.
  change (split_on "/" "assign") with ["assign"].
  cbn [remove_dot_segments]. 
  change (String.eqb "products" "..") with false.
  change (String.eqb "products" ".") with false. cbv iota.
  destruct (String.eqb enc "..") eqn:H1.
  { reflexivity. }
  destruct (String.eqb enc ".") eqn:H2.
  { reflexivity. }
  reflexivity.
Qed.

Lemma catalog_echoes enc aid m :
  has "/" enc = false → has "?" enc = false →
  let answer :=
    fst (catalogServer "POST" (request_target ("/products/" +:+ enc +:+ "/assign"))
           (Some (VObj [("accountId", VStr aid)])) m) in
  res_ok answer = true →
  answer = sendJson 200
             (VObj [("assignment",
                     VObj [("id", VStr ("as" +:+ pretty (assignmentCounter m)));
                           ("productId", VStr enc);
                           ("accountId", VStr aid)])]).
Proof.
  intros Hs Hq. rewrite request_target_products by done.
  destruct (String.eqb enc "..") eqn:H1; [discriminate|].
  destruct (String.eqb enc ".") eqn:H2; [discriminate|].
  unfold catalogServer.
  assert (split_on "?" ("/products/" +:+ enc +:+ "/assign")
          = ["/products/" +:+ enc +:+ "/assign"]) as ->.
  { apply split_on_none. rewrite !has_app, Hq. done. }
  cbn [hd]. change (String.eqb "POST" "GET") with false. cbn [andb].
  change (String.eqb "POST" "POST") with true. cbv iota.
  unfold matchPath.
  change ("/products/" +:+ enc +:+ "/assign")
    with ("" +:+ String "/" ("products" +:+ String "/" (enc +:+ String "/" "assign"))).
  rewrite !split_on_app by done.
  change (split_on "/" "assign") with ["assign"].
  change (nonempty (split_on "/" "/products/:productId/assign"))
    with ["products"; ":productId"; "assign"].
  unfold nonempty. cbn [List.filter]. 
  change (String.eqb "" "") with true. 
  change (String.eqb "products" "") with false. 
  change (String.eqb "assign" "") with false. cbn [negb].
  destruct (String.eqb enc "") eqn:H3; cbn [negb length Nat.eqb]; [discriminate|].
  cbn [match_parts]. 
  change (startsWith "products" ":") with false.
  change (startsWith ":productId" ":") with true.
  change (startsWith "assign" ":") with false.
  change (String.eqb "products" "products") with true.
  change (String.eqb "assign" "assign") with true. cbn [negb app].
  change (slice1 ":productId") with "productId". cbn [param].
  change (String.eqb "productId" "productId") with true. cbv iota.
  destruct (startsWith enc "unknown"); [discriminate|].
  cbn [parseJsonBody wire field assoc].
  change (String.eqb "accountId" "accountId") with true. cbv iota.
  cbn [truthy].
  destruct (String.eqb aid ""); cbn [negb]; [discriminate|].
  reflexivity.
Qed.

End Catalog.

(** ** Properties of the onboarding and of the ledger *)

Section Orchestration.
Context {W : Type} (E : env W).
Implicit Types (s : state W) (w : W).

Lemma receive_return res data :
  receive res = Return data →
  res_ok res = true ∧ parse_text (res_text res) = Return data.
Proof.
  unfold receive. destruct (parse_text (res_text res)) as [d|e]; simpl; [|done].
  destruct (res_ok res); simpl; [by intros [= <-]|].
  by destruct (get_prop d "error").
Qed.

Lemma num_add_exact x y :
  is_double (x + y) = true → num_add (Fin x) (Fin y) = Fin (x + y).
Proof.
  unfold is_double. intros H.
  assert (round_double (x + y) = Fin (x + y)) as Hr.
  { destruct (round_double (x + y)) as [z'| | |]; try discriminate.
    by apply Z.eqb_eq in H as ->. }
  destruct x as [|x|x]; [done| |];
    (destruct y as [|y|y]; [by rewrite Z.add_0_r|exact Hr|exact Hr]).
Qed.

Lemma total_from a zs :
  exact_sums a zs = true →
  fold_left num_add (map Fin zs) (Fin a) = Fin (a + foldr Z.add 0 zs).
Proof.
  revert a. induction zs as [|z zs IH]; intros a H; cbn [map fold_left foldr].
  - f_equal. lia.
  - cbn [exact_sums] in H.
    apply andb_prop in H as [H Hrest]. apply andb_prop in H as [_ H].
    rewrite (num_add_exact a z H), (IH _ Hrest). f_equal. lia.
Qed.

(** C4, amended: an onboarding request with the three required values
    and a finite number as [initialCredit], whose createUser
    call yields a user and whose assignProduct call yields an
    assignment, is answered 201 with that user, the new account, that
    assignment and a balance, read back from the ledger, equal to
    [initialCredit].  The assignment is the one the catalog returned:
    when the catalog answers as the mock server of the repository
    does, its [productId] is the path segment the request carried,
    [encodeURIComponent(productId)], which is the requested
    [productId] when that is a string of unreserved characters. *)
Theorem onboard_success body s z answer1 w1 user answer2 w2 assignment :
  let b := or_else body (VObj []) in
  let name := field b "name" in
  let email := field b "email" in
  let productId := field b "productId" in
  let account :=
    mkAccount (account_id (accountCounter (store s))) (field user "id")
      (VStr "standard") (clock E w1) in
  truthy name = true → truthy email = true → truthy productId = true →
  field b "initialCredit" = VNum (Fin z) →
  fetch E (create_user_request E name email) (outside s) = (answer1, w1) →
  yields answer1 "user" = Return user →
  fetch E (assign_request E productId (id account)) w1 = (answer2, w2) →
  yields answer2 "assignment" = Return assignment →
  (∃ s',
      post_onboard E body s
      = (Return (Response 201 (ReplyOnboard user account assignment (Fin z))),
         s') ∧
      balancesByAccountId (store s') !! id account = Some (Fin z)) ∧
  (∀ m,
      answer2
      = Responds
          (fst (Mock.catalogServer "POST"
                  (Mock.request_target
                     ("/products/" +:+ encodeURIComponent productId
                        +:+ "/assign"))
                  (Some (VObj [("accountId", VStr (id account))])) m)) →
      field assignment "productId" = VStr (encodeURIComponent productId) ∧
      ∀ p, productId = VStr p → all_unreserved p = true →
           field assignment "productId" = VStr p).
Proof.
  intros b name email productId account Hn He Hp Hic H1 Hu H2 Hy.
  subst name email productId b. split.
  - rewrite post_onboard_run. cbv zeta.
    rewrite (onboard_run E _ _ _ _ _ _ _ Hn He Hp H1). cbv zeta. rewrite Hu.
    change (fst (createAccount_in _ _ _ _)) with account.
    set (l1 := snd (createAccount_in _ _ _ _)).
    assert (balancesByAccountId l1 !! id account = Some (Fin 0)) as Hb
      by apply lookup_insert_eq.
    pose proof (opening_balance_stored
                  (field_default (or_else body (VObj [])) "initialCredit"
                     (VNum (Fin 0))) account l1 Hb) as Hob.
    pose proof (opening_balance_read _ _ _ Hob) as Hread.
    unfold opening_balance in Hob, Hread. unfold field_default in *.
    rewrite Hic in *. unfold numeric in *. cbn [isNaN] in *.
    rewrite H2, Hy, Hread. eauto.
  - intros m ->. rewrite yields_eq in Hy. simpl in Hy.
    destruct (receive _) as [data|] eqn:Hr; [|done].
    apply receive_return in Hr as [Hok Hparse].
    pose proof (encode_bytes_plain
                  (to_string (field (or_else body (VObj [])) "productId")))
      as [Hs Hq].
    pose proof (catalog_echoes
                  (encodeURIComponent (field (or_else body (VObj [])) "productId"))
                  (account_id (accountCounter (store s))) m Hs Hq Hok)
      as Hecho.
    rewrite Hecho in Hparse.
    injection Hparse as <-. injection Hy as <-.
    split; [done|]. intros p Hpid Hall. simpl. unfold encodeURIComponent.
    rewrite Hpid. simpl. by rewrite encode_bytes_unreserved.
Qed.

(** C7, amended: when [initialCredit] is present but is not of type
    number, or is NaN, the credit step is skipped: no credit is
    applied, the balance of the new account is 0, and the reply is
    decided by the assignProduct call alone, with balance 0 on
    success.  (A number that is infinite passes the test of the
    handler and is credited.) *)
Theorem onboard_credit_skipped body s answer1 w1 user answer2 w2 :
  let b := or_else body (VObj []) in
  let name := field b "name" in
  let email := field b "email" in
  let productId := field b "productId" in
  let account :=
    mkAccount (account_id (accountCounter (store s))) (field user "id")
      (VStr "standard") (clock E w1) in
  truthy name = true → truthy email = true → truthy productId = true →
  field b "initialCredit" ≠ VUndef →
  numeric (field b "initialCredit") = None →
  fetch E (create_user_request E name email) (outside s) = (answer1, w1) →
  yields answer1 "user" = Return user →
  fetch E (assign_request E productId (id account)) w1 = (answer2, w2) →
  ∃ s',
    post_onboard E body s
    = (Return match yields answer2 "assignment" with
              | Return assignment =>
                  Response 201 (ReplyOnboard user account assignment (Fin 0))
              | Throw e =>
                  Response (status_or_500 e) (ReplyError (err_message e))
              end, s') ∧
    (∀ i, credits_to i (trace s') = credits_to i (trace s)) ∧
    balancesByAccountId (store s') !! id account = Some (Fin 0).
Proof.
  intros b name email productId account Hn He Hp Hpresent Hskip H1 Hu H2.
  subst name email productId b.
  rewrite post_onboard_run. cbv zeta.
  rewrite (onboard_run E _ _ _ _ _ _ _ Hn He Hp H1). cbv zeta. rewrite Hu.
  change (fst (createAccount_in _ _ _ _)) with account.
  set (l1 := snd (createAccount_in _ _ _ _)).
  assert (balancesByAccountId l1 !! id account = Some (Fin 0)) as Hb
    by apply lookup_insert_eq.
  assert (field_default (or_else body (VObj [])) "initialCredit" (VNum (Fin 0))
          = field (or_else body (VObj [])) "initialCredit") as ->.
  { unfold field_default.
    by destruct (field (or_else body (VObj [])) "initialCredit"). }
  rewrite Hskip, H2.
  assert (balance_or_zero l1 (id account) = Fin 0) as ->.
  { unfold balance_or_zero. by rewrite Hb. }
  eexists. split; [by destruct (yields answer2 "assignment")|].
  destruct (yields answer2 "assignment"); cbn [snd store trace];
    (split; [|exact Hb]);
    intros i; by rewrite !credits_to_app, !app_nil_r.
Qed.

(** C10: a [POST /accounts] request with a truthy [userId] that the
    identity service confirms creates an account and answers 201 with
    it; the account is stored under its id, belongs to that [userId],
    and has type ["standard"] when the body has no [type], else
    exactly the [type] of the body. *)
Theorem post_accounts_type body s answer w user :
  let b := or_else body (VObj []) in
  let uid := field b "userId" in
  truthy uid = true →
  fetch E (Request "GET"
             (IDENTITY_BASE_URL E +:+ "/users/" +:+ encodeURIComponent uid)
             None) (outside s) = (answer, w) →
  yields answer "user" = Return user →
  ∃ account s',
    post_accounts E body s
    = (Return (Response 201 (ReplyAccount account)), s') ∧
    accountsById (store s') !! id account = Some account ∧
    userId account = uid ∧
    (field b "type" = VUndef → type account = VStr "standard") ∧
    (field b "type" ≠ VUndef → type account = field b "type").
Proof.
  intros b uid Htruthy H1 Hy.
  rewrite (post_accounts_run E body s answer w Htruthy H1). cbv zeta.
  fold b. rewrite Hy. eexists. eexists. split; [reflexivity|].
  cbn [store fst snd createAccount_in id userId type].
  split; [apply lookup_insert_eq|]. split; [done|].
  unfold field_default. by destruct (field b "type").
Qed.

(** Where the three downstream calls (fetchUser in [POST /accounts],
    createUser and assignProduct in the onboarding) do report a failure
    of the downstream, in the sense of [surfaces]: a response that is
    not 2xx and whose body is empty or the JSON text of a value other
    than [null], with an [error] that is no object, is answered with
    the status of that response, unchanged, and the message taken from
    the [error] of its body, else its status text; a downstream that
    cannot be reached is answered 500. *)
Theorem downstream_failure_surfaced :
  (∀ body s answer w,
      let b := or_else body (VObj []) in
      truthy (field b "userId") = true →
      fetch E (Request "GET"
                 (IDENTITY_BASE_URL E +:+ "/users/"
                    +:+ encodeURIComponent (field b "userId"))
                 None) (outside s) = (answer, w) →
      ∃ r s', post_accounts E body s = (Return r, s') ∧ surfaces answer r) ∧
  (∀ body s answer w,
      let b := or_else body (VObj []) in
      truthy (field b "name") = true → truthy (field b "email") = true →
      truthy (field b "productId") = true →
      fetch E (create_user_request E (field b "name") (field b "email"))
        (outside s) = (answer, w) →
      ∃ r s', post_onboard E body s = (Return r, s') ∧ surfaces answer r) ∧
  (∀ body s answer1 w1 user answer2 w2,
      let b := or_else body (VObj []) in
      truthy (field b "name") = true → truthy (field b "email") = true →
      truthy (field b "productId") = true →
      fetch E (create_user_request E (field b "name") (field b "email"))
        (outside s) = (answer1, w1) →
      yields answer1 "user" = Return user →
      fetch E (assign_request E (field b "productId")
                 (account_id (accountCounter (store s)))) w1
      = (answer2, w2) →
      ∃ r s', post_onboard E body s = (Return r, s') ∧ surfaces answer2 r).
Proof.
  split; [|split].
  - intros body s answer w b Hu H1.
    rewrite (post_accounts_run E body s answer w Hu H1). cbv zeta.
    destruct (yields answer "user") as [user|e] eqn:Hy.
    + eexists. eexists. split; [reflexivity|]. by eapply surfaces_returned.
    + eexists. eexists. split; [reflexivity|]. by apply surfaces_thrown with "user".
  - intros body s answer w b Hn He Hp H1. subst b.
    rewrite post_onboard_run. cbv zeta.
    rewrite (onboard_run E _ _ _ _ _ _ _ Hn He Hp H1). cbv zeta.
    destruct (yields answer "user") as [user|e] eqn:Hy.
    + destruct (numeric _); destruct (fetch E _ w) as [answer2 w2];
        destruct (yields answer2 "assignment");
        eexists; eexists; (split; [reflexivity|]); by eapply surfaces_returned.
    + eexists. eexists. split; [reflexivity|]. by apply surfaces_thrown with "user".
  - intros body s answer1 w1 user answer2 w2 b Hn He Hp H1 Hu H2. subst b.
    rewrite post_onboard_run. cbv zeta.
    rewrite (onboard_run E _ _ _ _ _ _ _ Hn He Hp H1). cbv zeta. rewrite Hu.
    cbn [fst createAccount_in id].
    destruct (numeric _); rewrite H2;
      destruct (yields answer2 "assignment") as [assignment|e] eqn:Hy;
      eexists; eexists; (split; [reflexivity|]);
      first [by eapply surfaces_returned
            |by apply surfaces_thrown with "assignment"].
Qed.

(** C9: in every state the service reaches, the accounts listed for a
    user id [u] (whatever value it is) are the accounts created so far
    for [u], oldest first: none of them missing, no other among them,
    and the empty sequence when there is none; and
    [GET /accounts?userId=u] with a [userId] that is present answers 200
    with that sequence and changes nothing. *)
Theorem accounts_listed_in_creation_order rs w :
  let s := serve E rs (boot w) in
  (∀ u, default [] (vmap_get (accountsByUserId (store s)) u)
        = created_for u (trace s)) ∧
  (∀ query,
      let u := field (or_else query (VObj [])) "userId" in
      truthy u = true →
      get_accounts query s
      = (Return (Response 200 (ReplyAccounts (created_for u (trace s)))), s)).
Proof.
  intros s.
  pose proof (listing s (consistent_serve E rs _ (consistent_boot w))) as Hl.
  split; [exact Hl|].
  intros query u Hu. unfold get_accounts. fold u. rewrite Hu. cbn [negb].
  rewrite bind_run. unfold read at 1. by rewrite Hl.
Qed.

(** C2, amended: in every state the service reaches and for every id,
    the balance map has an entry for the id exactly when the account
    map has one; and the balance of an account is the arithmetic sum of
    the deltas credited to it, negative ones included and 0 when there
    is none, whenever the deltas are finite and no addition along the
    way rounds or overflows: each sum of the first deltas is itself a
    double. *)
Theorem ledger_balances rs w i :
  let s := serve E rs (boot w) in
  (is_Some (balancesByAccountId (store s) !! i) ↔
   is_Some (accountsById (store s) !! i)) ∧
  (∀ zs, is_Some (accountsById (store s) !! i) →
         credits_to i (trace s) = map Fin zs →
         exact_sums 0 zs = true →
         balancesByAccountId (store s) !! i = Some (Fin (foldr Z.add 0 zs))).
Proof.
  intros s.
  pose proof (consistent_serve E rs _ (consistent_boot w)) as Hs. fold s in Hs.
  split; [apply (balances_domain s Hs)|].
  intros zs Hi Hzs Hexact.
  rewrite (balances_total s Hs i Hi); rewrite Hzs; unfold total;
    by rewrite (total_from 0 zs Hexact).
Qed.

End Orchestration.

(** ** The properties on concrete requests, against the mock servers *)

Lemma onboard_missing_field_rejected_witness :
  truthy (field (VObj [("name", VStr "Ada"); ("productId", VStr "p1")]) "email")
  = false ∧
  post_onboard Mock.world (VObj [("name", VStr "Ada"); ("productId", VStr "p1")])
    (boot Mock.initial)
  = (Return (Response 400
               (ReplyError "name, email, and productId are required")),
     boot Mock.initial).
Proof.
  split; [reflexivity|].
  apply (onboard_missing_field_rejected Mock.world
           (VObj [("name", VStr "Ada"); ("productId", VStr "p1")])
           (boot Mock.initial)).
  right. left. reflexivity.
Defined.

Lemma onboard_create_user_failure_witness :
  post_onboard Mock.world
    (VObj [("name", VStr "Ada"); ("email", VNum PInf); ("productId", VStr "p1")])
    (boot Mock.initial)
  = (Return (Response 400 (ReplyError "name and email are required")),
     State initial_ledger Mock.initial
       [Fetched (create_user_request Mock.world (VStr "Ada") (VNum PInf))]).
Proof.
  exact (onboard_create_user_failure Mock.world
           (VObj [("name", VStr "Ada"); ("email", VNum PInf);
                  ("productId", VStr "p1")])
           (boot Mock.initial)
           (Responds (Mock.sendJson 400
                        (VObj [("error", VStr "name and email are required")])))
           Mock.initial
           (JsError "name and email are required" (Some 400))
           eq_refl eq_refl eq_refl eq_refl eq_refl).
Defined.

Lemma onboard_partial_commit_witness :
  ∃ s',
    post_onboard Mock.world
      (ada (VStr "unknown-x") [("initialCredit", VNum (of_int 100))])
      (boot Mock.initial)
    = (Return (Response 404 (ReplyError "product not found")), s') ∧
    accountsById (store s') !! "a1"
    = Some (mkAccount "a1" (VStr "u1") (VStr "standard") noon) ∧
    balancesByAccountId (store s') !! "a1" = Some (of_int 100) ∧
    get_account "a1" s'
    = (Return (Response 200
                 (ReplyAccountBalance
                    (mkAccount "a1" (VStr "u1") (VStr "standard") noon)
                    (of_int 100))), s').
Proof.
  exact (onboard_partial_commit Mock.world
           (ada (VStr "unknown-x") [("initialCredit", VNum (of_int 100))])
           (boot Mock.initial)
           (Responds (Mock.sendJson 201 (VObj [("user", ada_user)])))
           (Mock.Servers {["u1" := ada_user]} 2 1)
           ada_user
           (Responds (Mock.sendJson 404
                        (VObj [("error", VStr "product not found")])))
           (Mock.Servers {["u1" := ada_user]} 2 1)
           (JsError "product not found" (Some 404))
           eq_refl eq_refl eq_refl eq_refl eq_refl eq_refl eq_refl).
Defined.

Lemma credit_unknown_account_witness :
  accountsById (store (boot Mock.initial)) !! "a9" = None ∧
  post_credit "a9" (VObj [("amount", VNum (of_int 25))]) (boot Mock.initial)
  = (Return (Response 404 (ReplyError "account not found")), boot Mock.initial).
Proof.
  split; [reflexivity|].
  exact (credit_unknown_account "a9" (VObj [("amount", VNum (of_int 25))])
           (boot Mock.initial) eq_refl).
Defined.

Lemma onboard_success_witness :
  (∃ s',
      post_onboard Mock.world
        (ada (VStr "p1") [("initialCredit", VNum (of_int 100))]) (boot Mock.initial)
      = (Return (Response 201
                   (ReplyOnboard ada_user
                      (mkAccount "a1" (VStr "u1") (VStr "standard") noon)
                      (VObj [("id", VStr "as1"); ("productId", VStr "p1");
                             ("accountId", VStr "a1")])
                      (of_int 100))), s') ∧
      balancesByAccountId (store s') !! "a1" = Some (of_int 100)) ∧
  field (VObj [("id", VStr "as1"); ("productId", VStr "p1");
               ("accountId", VStr "a1")]) "productId" = VStr "p1".
Proof.
  pose proof (onboard_success Mock.world
                (ada (VStr "p1") [("initialCredit", VNum (of_int 100))])
                (boot Mock.initial) (100 * scale)
                (Responds (Mock.sendJson 201 (VObj [("user", ada_user)])))
                (Mock.Servers {["u1" := ada_user]} 2 1)
                ada_user
                (Responds
                   (Mock.sendJson 200
                      (VObj [("assignment",
                              VObj [("id", VStr "as1"); ("productId", VStr "p1");
                                    ("accountId", VStr "a1")])])))
                (Mock.Servers {["u1" := ada_user]} 2 2)
                (VObj [("id", VStr "as1"); ("productId", VStr "p1");
                       ("accountId", VStr "a1")])
                eq_refl eq_refl eq_refl eq_refl eq_refl eq_refl eq_refl eq_refl)
    as [Hreply Hcatalog].
  split; [exact Hreply|].
  exact (proj2 (Hcatalog (Mock.Servers {["u1" := ada_user]} 2 1) eq_refl)
           "p1" eq_refl eq_refl).
Defined.

Lemma onboard_credit_skipped_witness :
  ∃ s',
    post_onboard Mock.world
      (ada (VStr "p1") [("initialCredit", VStr "100")]) (boot Mock.initial)
    = (Return (Response 201
                 (ReplyOnboard ada_user
                    (mkAccount "a1" (VStr "u1") (VStr "standard") noon)
                    (VObj [("id", VStr "as1"); ("productId", VStr "p1");
                           ("accountId", VStr "a1")])
                    (Fin 0))), s') ∧
    (∀ i, credits_to i (trace s') = []) ∧
    balancesByAccountId (store s') !! "a1" = Some (Fin 0).
Proof.
  assert (VStr "100" ≠ VUndef) as Hpresent by discriminate.
  exact (onboard_credit_skipped Mock.world
           (ada (VStr "p1") [("initialCredit", VStr "100")])
           (boot Mock.initial)
           (Responds (Mock.sendJson 201 (VObj [("user", ada_user)])))
           (Mock.Servers {["u1" := ada_user]} 2 1)
           ada_user
           (Responds
              (Mock.sendJson 200
                 (VObj [("assignment",
                         VObj [("id", VStr "as1"); ("productId", VStr "p1");
                               ("accountId", VStr "a1")])])))
           (Mock.Servers {["u1" := ada_user]} 2 2)
           eq_refl eq_refl eq_refl Hpresent eq_refl eq_refl eq_refl eq_refl).
Defined.

Lemma post_accounts_type_witness :
  (∃ account s',
      post_accounts Mock.world (VObj [("userId", VStr "u7")]) (boot Mock.initial)
      = (Return (Response 201 (ReplyAccount account)), s') ∧
      accountsById (store s') !! id account = Some account ∧
      userId account = VStr "u7" ∧ type account = VStr "standard") ∧
  (∃ account s',
      post_accounts Mock.world
        (VObj [("userId", VStr "u7"); ("type", VNull)]) (boot Mock.initial)
      = (Return (Response 201 (ReplyAccount account)), s') ∧
      accountsById (store s') !! id account = Some account ∧
      userId account = VStr "u7" ∧ type account = VNull).
Proof.
  split.
  - destruct (post_accounts_type Mock.world (VObj [("userId", VStr "u7")])
                (boot Mock.initial) _ _ _ eq_refl eq_refl eq_refl)
      as (account & s' & Hrun & Hstored & Huser & Hdefault & _).
    exists account, s'. repeat split; try assumption.
    apply Hdefault. reflexivity.
  - destruct (post_accounts_type Mock.world
                (VObj [("userId", VStr "u7"); ("type", VNull)])
                (boot Mock.initial) _ _ _ eq_refl eq_refl eq_refl)
      as (account & s' & Hrun & Hstored & Huser & _ & Hgiven).
    exists account, s'. repeat split; try assumption.
    apply Hgiven. discriminate.
Defined.

Lemma downstream_failure_surfaced_witness :
  (∃ s', post_accounts Mock.world (VObj [("userId", VStr "unknown7")])
           (boot Mock.initial)
         = (Return (Response 404 (ReplyError "user not found")), s')) ∧
  (∃ s', post_onboard Mock.world (ada (VStr "unknown-x") []) (boot Mock.initial)
         = (Return (Response 404 (ReplyError "product not found")), s')).
Proof.
  split.
  - destruct (proj1 (downstream_failure_surfaced Mock.world)
                (VObj [("userId", VStr "unknown7")]) (boot Mock.initial)
                _ _ eq_refl eq_refl)
      as (r & s' & Hrun & Hreported & _).
    exists s'. rewrite Hrun. f_equal. f_equal.
    exact (Hreported _ _ eq_refl eq_refl ltac:(discriminate) eq_refl
             ltac:(discriminate) ltac:(discriminate) eq_refl).
  - destruct (proj2 (proj2 (downstream_failure_surfaced Mock.world))
                (ada (VStr "unknown-x") []) (boot Mock.initial)
                _ _ ada_user _ _ eq_refl eq_refl eq_refl eq_refl eq_refl eq_refl)
      as (r & s' & Hrun & Hreported & _).
    exists s'. rewrite Hrun. f_equal. f_equal.
    exact (Hreported _ _ eq_refl eq_refl ltac:(discriminate) eq_refl
             ltac:(discriminate) ltac:(discriminate) eq_refl).
Defined.

Lemma accounts_listed_in_creation_order_witness :
  get_accounts (VObj [("userId", VStr "u7")])
    (serve Mock.world three_accounts (boot Mock.initial))
  = (Return (Response 200
               (ReplyAccounts
                  [mkAccount "a1" (VStr "u7") (VStr "standard") noon;
                   mkAccount "a3" (VStr "u7") (VStr "standard") noon])),
     serve Mock.world three_accounts (boot Mock.initial)) ∧
  get_accounts (VObj [("userId", VStr "u9")])
    (serve Mock.world three_accounts (boot Mock.initial))
  = (Return (Response 200 (ReplyAccounts [])),
     serve Mock.world three_accounts (boot Mock.initial)).
Proof.
  split.
  - exact (proj2 (accounts_listed_in_creation_order Mock.world three_accounts
                    Mock.initial) (VObj [("userId", VStr "u7")]) eq_refl).
  - exact (proj2 (accounts_listed_in_creation_order Mock.world three_accounts
                    Mock.initial) (VObj [("userId", VStr "u9")]) eq_refl).
Defined.

Lemma ledger_balances_witness :
  credits_to "a1" (trace (serve Mock.world three_accounts (boot Mock.initial)))
  = [of_int 100; of_int (-250)] ∧
  balancesByAccountId
    (store (serve Mock.world three_accounts (boot Mock.initial))) !! "a1"
  = Some (of_int (-150)) ∧
  balancesByAccountId
    (store (serve Mock.world three_accounts (boot Mock.initial))) !! "a2"
  = Some (Fin 0).
Proof.
  split; [reflexivity|]. split.
  - exact (proj2 (ledger_balances Mock.world three_accounts Mock.initial "a1")
             [100 * scale; -250 * scale] (mk_is_Some _ _ eq_refl) eq_refl
             eq_refl).
  - exact (proj2 (ledger_balances Mock.world three_accounts Mock.initial "a2")
             [] (mk_is_Some _ _ eq_refl) eq_refl eq_refl).
Defined.

(** ** Where the specification and the code part *)

(** C2, as stated, fails: balances are doubles.  After credits of 2^53
    and of 1 to account [a1] its balance is 2^53, the double nearest to
    their sum 2^53 + 1. *)
Lemma balance_is_not_the_arithmetic_sum :
  is_Some (accountsById
             (store (serve Mock.world beyond_2_53 (boot Mock.initial)))
           !! "a1") ∧
  credits_to "a1" (trace (serve Mock.world beyond_2_53 (boot Mock.initial)))
  = [of_int 9007199254740992; of_int 1] ∧
  balancesByAccountId
    (store (serve Mock.world beyond_2_53 (boot Mock.initial))) !! "a1"
  = Some (of_int 9007199254740992) ∧
  of_int 9007199254740992 ≠ of_int (9007199254740992 + 1).
Proof. split; [by eexists|]. by vm_compute. Qed.

(** Nor is the balance a sum once [+Infinity] and [-Infinity] have both
    been credited to account [a1]: it is NaN, which the next credit
    reads as 0; after a further credit of 5 the balance is 5, while the
    sum of the three deltas is NaN. *)
Lemma balance_is_not_the_sum_after_both_infinities :
  is_Some (accountsById
             (store (serve Mock.world both_infinities (boot Mock.initial)))
           !! "a1") ∧
  credits_to "a1" (trace (serve Mock.world both_infinities (boot Mock.initial)))
  = [PInf; NInf; of_int 5] ∧
  balancesByAccountId
    (store (serve Mock.world both_infinities (boot Mock.initial))) !! "a1"
  = Some (of_int 5) ∧
  total (credits_to "a1"
           (trace (serve Mock.world both_infinities (boot Mock.initial))))
  = NaN.
Proof. split; [by eexists|]. by vm_compute. Qed.

(** C3 asks for the status of the downstream, and [fetchJson] attaches
    it to the error it throws; but it parses the body before it looks
    at [res.ok], so a downstream that answers 503 with a body that is
    not JSON is reported to the caller as a 500 carrying the message of
    the parser, not as a 503 with the status text. *)
Lemma status_lost_on_unparsable_body :
  fetch gateway_down
    (create_user_request gateway_down (VStr "Ada") (VStr "ada@example.com")) tt
  = (Responds (HttpResponse 503 "Service Unavailable"
                 (BadText "Unexpected token '<'")), tt) ∧
  res_ok (HttpResponse 503 "Service Unavailable"
            (BadText "Unexpected token '<'")) = false ∧
  fst (post_onboard gateway_down (ada (VStr "p1") []) (boot tt))
  = Return (Response 500 (ReplyError "Unexpected token '<'")).
Proof. by vm_compute. Qed.

(** C6 asks for the status and the message of the identity service:
    when it answers the createUser call with 503 and a body that is not
    JSON, the onboarding ends there, with no account, no balance entry
    and this one request sent, but its reply is a 500 carrying the
    message of the parser. *)
Lemma create_user_status_lost :
  fetch gateway_down
    (create_user_request gateway_down (VStr "Ada") (VStr "ada@example.com")) tt
  = (Responds (HttpResponse 503 "Service Unavailable"
                 (BadText "Unexpected token '<'")), tt) ∧
  post_onboard gateway_down
    (ada (VStr "p1") [("initialCredit", VNum (of_int 100))]) (boot tt)
  = (Return (Response 500 (ReplyError "Unexpected token '<'")),
     State initial_ledger tt
       [Fetched (create_user_request gateway_down (VStr "Ada")
                   (VStr "ada@example.com"))]).
Proof. by vm_compute. Qed.

(** C1 asks for the status of the catalog: when the identity service
    has created the user and the catalog answers the assignProduct call
    with 404 and a body that is not JSON, the account [a1] stays in the
    ledger with the 100 credited to it and [GET /accounts/a1] returns
    it, but the reply to the onboarding is a 500 carrying the message
    of the parser. *)
Lemma catalog_status_lost_after_commit :
  let s' :=
    snd (post_onboard catalog_behind_proxy
           (ada (VStr "p1") [("initialCredit", VNum (of_int 100))])
           (boot Mock.initial)) in
  fetch catalog_behind_proxy
    (assign_request catalog_behind_proxy (VStr "p1") "a1")
    (Mock.Servers {["u1" := ada_user]} 2 1)
  = (Responds (HttpResponse 404 "Not Found" (BadText "Unexpected token '<'")),
     Mock.Servers {["u1" := ada_user]} 2 1) ∧
  fst (post_onboard catalog_behind_proxy
         (ada (VStr "p1") [("initialCredit", VNum (of_int 100))])
         (boot Mock.initial))
  = Return (Response 500 (ReplyError "Unexpected token '<'")) ∧
  trace s'
  = [Fetched (create_user_request catalog_behind_proxy (VStr "Ada")
                (VStr "ada@example.com"));
     Created (mkAccount "a1" (VStr "u1") (VStr "standard") noon);
     Credited "a1" (of_int 100);
     Fetched (assign_request catalog_behind_proxy (VStr "p1") "a1")] ∧
  accountsById (store s') !! "a1"
  = Some (mkAccount "a1" (VStr "u1") (VStr "standard") noon) ∧
  balancesByAccountId (store s') !! "a1" = Some (of_int 100) ∧
  get_account "a1" s'
  = (Return (Response 200
               (ReplyAccountBalance
                  (mkAccount "a1" (VStr "u1") (VStr "standard") noon)
                  (of_int 100))), s').
Proof. by vm_compute. Qed.

(** C4, as stated, fails: against the mock catalog, which accepts the
    call, the assignment returned for the product id ["p 1"] has the
    [productId] ["p%201"]. *)
Lemma encoded_product_id_returned :
  fst (post_onboard Mock.world
         (ada (VStr "p 1") [("initialCredit", VNum (of_int 100))])
         (boot Mock.initial))
  = Return (Response 201
              (ReplyOnboard ada_user
                 (mkAccount "a1" (VStr "u1") (VStr "standard") noon)
                 (VObj [("id", VStr "as1"); ("productId", VStr "p%201");
                        ("accountId", VStr "a1")])
                 (of_int 100))) ∧
  VStr "p%201" ≠ VStr "p 1".
Proof. split; [by vm_compute|discriminate]. Qed.

(** C7, as stated, fails: [initialCredit: Infinity] (the JSON number
    [1e999]) is present and is not a finite number, yet it is credited:
    the balance of the new account is [Infinity], not 0. *)
Lemma infinite_initial_credit_applied :
  field (ada (VStr "p1") [("initialCredit", VNum PInf)]) "initialCredit"
  = VNum PInf ∧
  isFinite PInf = false ∧
  credits_to "a1"
    (trace (snd (post_onboard Mock.world
                   (ada (VStr "p1") [("initialCredit", VNum PInf)])
                   (boot Mock.initial))))
  = [PInf] ∧
  balancesByAccountId
    (store (snd (post_onboard Mock.world
                   (ada (VStr "p1") [("initialCredit", VNum PInf)])
                   (boot Mock.initial)))) !! "a1"
  = Some PInf.
Proof. by vm_compute. Qed.

(** ** Steps of the machine, and what they keep *)

Section Steps.
Context {W : Type} (E : env W).
Implicit Types (s : state W) (w : W).

Lemma numbered_boot w : numbered (boot w).
Proof.
  split; simpl.
  - lia.
  - intros k. lia.
  - intros i [a Ha]. by rewrite lookup_empty in Ha.
  - intros i a Ha. by rewrite lookup_empty in Ha.
  - intros a. rewrite lookup_empty. split; [|done]. by intros ?%elem_of_nil.
Qed.

Lemma created_in_snoc (a : Account) (t : list event) (e : event) :
  Created a ∈ t ++ [e] ↔ Created a ∈ t ∨ e = Created a.
Proof.
  rewrite elem_of_app, list_elem_of_singleton. split; intros [?|?]; auto.
Qed.

Lemma numbered_step s s' : numbered s → step s s' → numbered s'.
Proof.
  intros [H0 H1 H2 H3 H4] Hstep. destruct Hstep as [s r w|s t u ty|s i n Hi].
  - split; simpl; try done.
    intros a. rewrite created_in_snoc, <- H4. split; [|auto].
    by intros [?|?].
  - set (new := account_id (accountCounter (store s))).
    assert (accountsById (store s) !! new = None) as Hfresh.
    { destruct (accountsById (store s) !! new) eqn:Hl; [|done].
      destruct (H2 new (mk_is_Some _ _ Hl)) as (k & Hk & Heq).
      apply account_id_inj in Heq. lia. }
    split; simpl; fold new.
    + lia.
    + intros k Hk. destruct (decide (k = accountCounter (store s))) as [->|Hne].
      * rewrite lookup_insert_eq. eauto.
      * rewrite lookup_insert_ne; [apply H1; lia|].
        intros Heq. by apply account_id_inj in Heq.
    + intros i. destruct (decide (new = i)) as [<-|Hne].
      * intros _. exists (accountCounter (store s)). split; [lia|done].
      * rewrite lookup_insert_ne by done. intros Hi.
        destruct (H2 i Hi) as (k & Hk & Heq). exists k. split; [lia|done].
    + intros i a. destruct (decide (new = i)) as [<-|Hne].
      * rewrite lookup_insert_eq. by intros [= <-].
      * rewrite lookup_insert_ne by done. apply H3.
    + intros a. rewrite created_in_snoc. split.
      * intros [Hold|[= <-]]; [|by rewrite lookup_insert_eq].
        apply H4 in Hold. rewrite lookup_insert_ne; [done|].
        intros Heq. congruence.
      * destruct (decide (new = id a)) as [Heq|Hne].
        -- rewrite <- Heq, lookup_insert_eq. intros [= <-]. by right.
        -- rewrite lookup_insert_ne by done. intros Hl. left. by apply H4.
  - split; simpl; try done.
    intros a. rewrite created_in_snoc, <- H4. split; [|auto].
    by intros [?|?].
Qed.

Lemma numbered_steps s s' : numbered s → rtc step s s' → numbered s'.
Proof. intros Hs Hr. induction Hr; eauto using numbered_step. Qed.

Lemma step_keeps_accounts s s' :
  numbered s → step s s' →
  (accountCounter (store s) ≤ accountCounter (store s'))%nat ∧
  ∀ i a, accountsById (store s) !! i = Some a →
         accountsById (store s') !! i = Some a.
Proof.
  intros Hs Hstep. destruct Hstep as [s r w|s t u ty|s i n Hi]; simpl.
  - done.
  - split; [lia|]. intros i a Ha. rewrite lookup_insert_ne; [done|].
    intros <-. destruct (ids_from_one s Hs _ (mk_is_Some _ _ Ha))
      as (k & Hk & Heq).
    apply account_id_inj in Heq. lia.
  - done.
Qed.

Lemma steps_keep_accounts s s' :
  numbered s → rtc step s s' →
  (accountCounter (store s) ≤ accountCounter (store s'))%nat ∧
  ∀ i a, accountsById (store s) !! i = Some a →
         accountsById (store s') !! i = Some a.
Proof.
  intros Hs Hr. induction Hr as [s|s s1 s2 H1 Hr IH]; [done|].
  destruct (step_keeps_accounts s s1 Hs H1) as [Hc Hk].
  destruct (IH (numbered_step _ _ Hs H1)) as [Hc' Hk'].
  split; [lia|]. eauto.
Qed.

Lemma post_accounts_refused body s :
  truthy (field (or_else body (VObj [])) "userId") = false →
  post_accounts E body s
  = (Return (Response 400 (ReplyError "userId is required")), s).
Proof. intros H. unfold post_accounts, try_catch. by rewrite H. Qed.

Lemma post_credit_run (i : string) body s a :
  accountsById (store s) !! i = Some a →
  post_credit i body s
  = match numeric (field (or_else body (VObj [])) "amount") with
    | None => (Return (Response 400 (ReplyError "amount must be a number")), s)
    | Some n =>
        (Return (Response 200
                   (ReplyCredit (id a) (fst (applyCredit_in (id a) n (store s))))),
         State (snd (applyCredit_in (id a) n (store s))) (outside s)
           (trace s ++ [Credited (id a) n]))
    end.
Proof.
  intros Ha. unfold post_credit. rewrite bind_run. unfold read at 1.
  rewrite Ha. by destruct (numeric _).
Qed.

Lemma onboard_refused body s :
  let b := or_else body (VObj []) in
  truthy (field b "name") && truthy (field b "email")
  && truthy (field b "productId") = false →
  post_onboard E body s
  = (Return (Response 400
               (ReplyError "name, email, and productId are required")), s).
Proof.
  intros b H. rewrite post_onboard_run. fold b. unfold onboard.
  assert (negb (truthy (field b "name")) || negb (truthy (field b "email"))
          || negb (truthy (field b "productId")) = true) as ->; [|done].
  by destruct (truthy (field b "name")), (truthy (field b "email")),
       (truthy (field b "productId")).
Qed.

Lemma handle_steps r s : numbered s → rtc step s (snd (handle E r s)).
Proof.
  intros Hs. destruct r as [body|i|query|i body|body|]; simpl.
  - destruct (truthy (field (or_else body (VObj [])) "userId")) eqn:Hu.
    + destruct (fetch E (Request "GET"
                  (IDENTITY_BASE_URL E +:+ "/users/" +:+
                   encodeURIComponent (field (or_else body (VObj [])) "userId"))
                  None) (outside s)) as [answer w] eqn:H1.
      rewrite (post_accounts_run E body s answer w Hu H1). cbv zeta.
      destruct (yields answer "user"); simpl.
      * eapply rtc_l; [apply step_fetch|]. apply rtc_once.
        apply (step_create (State (store s) w _)).
      * apply rtc_once, step_fetch.
    + by rewrite post_accounts_refused.
  - unfold get_account. rewrite bind_run. unfold read at 1.
    by destruct (accountsById (store s) !! i).
  - unfold get_accounts. by destruct (negb _).
  - destruct (accountsById (store s) !! i) as [a|] eqn:Ha.
    + rewrite (post_credit_run i body s a Ha).
      destruct (numeric _); simpl; [|done].
      apply rtc_once. apply (step_credit s (id a)).
      rewrite (stored_under_id s Hs _ _ Ha). by rewrite Ha.
    + unfold post_credit. rewrite bind_run. unfold read at 1. by rewrite Ha.
  - set (b := or_else body (VObj [])).
    destruct (truthy (field b "name")) eqn:Hn;
      [|by rewrite onboard_refused; [|fold b; rewrite Hn]].
    destruct (truthy (field b "email")) eqn:He;
      [|by rewrite onboard_refused; [|fold b; rewrite Hn, He]].
    destruct (truthy (field b "productId")) eqn:Hp;
      [|by rewrite onboard_refused; [|fold b; rewrite Hn, He, Hp]].
    destruct (fetch E (create_user_request E (field b "name") (field b "email"))
                (outside s)) as [answer1 w1] eqn:H1.
    rewrite post_onboard_run. fold b. cbv zeta.
    rewrite (onboard_run E _ _ _ _ _ _ _ Hn He Hp H1). cbv zeta.
    destruct (yields answer1 "user") as [user|e]; [|apply rtc_once, step_fetch].
    eapply rtc_l; [apply step_fetch|].
    eapply rtc_l; [apply (step_create (State (store s) w1 _))|].
    cbn [store outside trace].
    destruct (numeric _) as [n|].
    + destruct (fetch E _ w1) as [answer2 w2].
      eapply rtc_l.
      { apply (step_credit (State _ w1 _)
                 (account_id (accountCounter (store s))) n).
        cbn [store snd createAccount_in accountsById].
        rewrite lookup_insert_eq. eauto. }
      destruct (yields answer2 "assignment"); apply rtc_once;
        apply (step_fetch (State _ w1 _)).
    + destruct (fetch E _ w1) as [answer2 w2].
      destruct (yields answer2 "assignment"); apply rtc_once;
        apply (step_fetch (State _ w1 _)).
  - done.
Qed.

Lemma serve_steps rs s : numbered s → rtc step s (serve E rs s).
Proof.
  revert s. induction rs as [|r rs IH]; intros s Hs; simpl; [done|].
  etrans; [by apply handle_steps|].
  apply IH. eapply numbered_steps; [done|]. by apply handle_steps.
Qed.

Lemma numbered_serve rs w : numbered (serve E rs (boot w)).
Proof.
  eapply numbered_steps; [apply numbered_boot|]. apply serve_steps.
  apply numbered_boot.
Qed.

End Steps.

(** ** More on the handlers of the accounts service *)

Section Handlers.
Context {W : Type} (E : env W).
Implicit Types (s : state W) (w : W).

Lemma thrown_status_not_ok answer k e :
  yields answer k = Throw e → ¬ (200 ≤ status_or_500 e ≤ 299).
Proof.
  rewrite yields_eq. destruct answer as [res|msg]; simpl.
  - unfold receive.
    destruct (parse_text (res_text res)) as [data|e0] eqn:Hparse; simpl.
    + destruct (res_ok res) eqn:Hok; simpl.
      * unfold field_or_self. destruct (get_prop data k) as [v|e1] eqn:Hg; simpl.
        -- discriminate.
        -- destruct data; simpl in Hg; try discriminate;
             injection Hg as <-; intros [= <-]; unfold status_or_500; simpl; lia.
      * destruct (get_prop data "error") as [v|e1] eqn:Hg; simpl.
        -- intros [= <-]. unfold status_or_500. simpl.
           destruct (Z.eqb_spec (res_status res) 0); [lia|].
           unfold res_ok in Hok. lia.
        -- destruct data; simpl in Hg; try discriminate;
             injection Hg as <-; intros [= <-]; unfold status_or_500; simpl; lia.
    + destruct (res_text res); simpl in Hparse; try discriminate.
      injection Hparse as <-. intros [= <-]. unfold status_or_500. simpl. lia.
  - intros [= <-]. unfold status_or_500. simpl. lia.
Qed.

Lemma in_created_for (a : Account) u (t : list event) :
  a ∈ created_for u t ↔ Created a ∈ t ∧ same_value_zero (userId a) u = true.
Proof.
  induction t as [|[r|b|i n] t IH]; simpl.
  - split; [by intros ?%elem_of_nil|]. by intros [?%elem_of_nil _].
  - rewrite elem_of_cons, IH. split.
    + intros [? ?]. auto.
    + intros [[[=]|?] ?]. auto.
  - destruct (same_value_zero (userId b) u) eqn:Hb.
    + rewrite !elem_of_cons, IH. split.
      * intros [->|[? ?]]; auto.
      * intros [[[= ->]|?] ?]; auto.
    + rewrite elem_of_cons, IH. split.
      * intros [? ?]. auto.
      * intros [[[= ->]|?] ?]; [congruence|auto].
  - rewrite elem_of_cons, IH. split.
    + intros [? ?]. auto.
    + intros [[[=]|?] ?]. auto.
Qed.

(** X1: [POST /accounts] is all or nothing.  It always replies; either
    the reply is 201 with an account, which is the one [createAccount]
    made for the [userId] and [type] of the body and is stored under its
    id, or the reply is an error with a status that is not 2xx and the
    ledger is the one the request found.  Without a [userId] the reply
    is 400 and nothing at all has changed: no request went to the
    identity service. *)
Theorem post_accounts_all_or_nothing body s :
  let b := or_else body (VObj []) in
  ∃ r s',
    post_accounts E body s = (Return r, s') ∧
    ((∃ a t, r = Response 201 (ReplyAccount a) ∧
             (a, store s')
             = createAccount_in t (field b "userId")
                 (field_default b "type" (VStr "standard")) (store s) ∧
             accountsById (store s') !! id a = Some a) ∨
     (∃ msg, json r = ReplyError msg ∧ ¬ (200 ≤ status r ≤ 299) ∧
             store s' = store s)) ∧
    (truthy (field b "userId") = false → status r = 400 ∧ s' = s).
Proof.
  intros b. destruct (truthy (field b "userId")) eqn:Hu.
  - destruct (fetch E (Request "GET"
                (IDENTITY_BASE_URL E +:+ "/users/" +:+
                 encodeURIComponent (field b "userId")) None) (outside s))
      as [answer w] eqn:H1.
    rewrite (post_accounts_run E body s answer w Hu H1). cbv zeta. fold b.
    destruct (yields answer "user") as [user|e] eqn:Hy.
    + eexists. eexists. split; [reflexivity|]. split; [|done]. left.
      eexists. exists (clock E w). split; [reflexivity|]. split; [done|].
      apply lookup_insert_eq.
    + eexists. eexists. split; [reflexivity|]. split; [|done]. right.
      eexists. split; [reflexivity|]. split; [|done].
      by apply thrown_status_not_ok with answer "user".
  - rewrite post_accounts_refused by done.
    eexists. eexists. split; [reflexivity|]. split; [|done]. right.
    eexists. split; [reflexivity|]. split; [simpl; lia|done].
Qed.

(** X2: once [POST /accounts] has replied 201 with an account,
    [GET /accounts/:id] with the id of that account replies 200 with the
    same account and balance 0, and changes nothing. *)
Theorem create_then_get body s a s' :
  post_accounts E body s = (Return (Response 201 (ReplyAccount a)), s') →
  get_account (id a) s'
  = (Return (Response 200 (ReplyAccountBalance a (Fin 0))), s').
Proof.
  intros Hrun.
  destruct (truthy (field (or_else body (VObj [])) "userId")) eqn:Hu;
    [|by rewrite post_accounts_refused in Hrun].
  destruct (fetch E (Request "GET"
              (IDENTITY_BASE_URL E +:+ "/users/" +:+
               encodeURIComponent (field (or_else body (VObj [])) "userId"))
              None) (outside s)) as [answer w] eqn:H1.
  rewrite (post_accounts_run E body s answer w Hu H1) in Hrun. cbv zeta in Hrun.
  destruct (yields answer "user") as [user|e] eqn:Hy.
  - injection Hrun as <- <-. apply get_account_run; cbn [store snd fst].
    + apply lookup_insert_eq.
    + done.
    + unfold balance_or_zero. cbn [createAccount_in snd balancesByAccountId fst id].
      by rewrite lookup_insert_eq.
  - injection Hrun as Hst _. pose proof (thrown_status_not_ok _ _ _ Hy). lia.
Qed.

(** X3: [GET /accounts/:id] never changes anything.  For an id that is
    not in the account map it replies 404; for an account it replies 200
    with that account and the balance stored under the id of the
    account, where a missing balance and NaN read as 0, so that the
    balance in the reply is never NaN. *)
Theorem get_account_reply (i : string) s :
  ∃ r, get_account i s = (Return r, s) ∧
    (accountsById (store s) !! i = None →
     r = Response 404 (ReplyError "account not found")) ∧
    (∀ a, accountsById (store s) !! i = Some a →
          r = Response 200
                (ReplyAccountBalance a
                   match balancesByAccountId (store s) !! id a with
                   | Some NaN | None => Fin 0
                   | Some n => n
                   end)) ∧
    (∀ a n, r = Response 200 (ReplyAccountBalance a n) → n ≠ NaN).
Proof.
  unfold get_account. rewrite bind_run. unfold read at 1.
  destruct (accountsById (store s) !! i) as [a|] eqn:Ha.
  - rewrite bind_run. unfold read at 1. eexists. split; [reflexivity|].
    unfold balance_or_zero.
    split; [done|]. split.
    + intros ? [= <-].
      by destruct (balancesByAccountId (store s) !! id a) as [[[| |]| | |]|].
    + intros a' n [= _ <-].
      by destruct (balancesByAccountId (store s) !! id a) as [[[| |]| | |]|].
  - eexists. split; [reflexivity|]. split; [done|]. split; [done|]. done.
Qed.

(** X4: for an account that exists, [POST /accounts/:id/credit] with an
    [amount] that is missing, not of type number, or NaN replies 400 and
    changes nothing; the check of the id comes first, so the same body
    sent to an unknown id is answered 404. *)
Theorem credit_rejects_non_numbers (i : string) body s a :
  accountsById (store s) !! i = Some a →
  numeric (field (or_else body (VObj [])) "amount") = None →
  post_credit i body s
  = (Return (Response 400 (ReplyError "amount must be a number")), s) ∧
  ∀ j, accountsById (store s) !! j = None →
       post_credit j body s
       = (Return (Response 404 (ReplyError "account not found")), s).
Proof.
  intros Ha Hn. rewrite (post_credit_run i body s a Ha), Hn. split; [done|].
  intros j Hj. unfold post_credit. rewrite bind_run. unfold read. by rewrite Hj.
Qed.

(** X5: in every state the service reaches, crediting an existing
    account with a number [n] other than NaN replies 200 with the id and
    the new balance, which is the old balance (NaN read as 0) plus [n]
    as doubles add: rounded to the nearest double, an infinity on
    overflow, NaN for opposite infinities; only the balance of that
    account has changed in the ledger; and a [GET /accounts/:id] that
    follows reports the same balance, except that a new balance of NaN
    is reported as 0. *)
Theorem credit_then_get rs w (i : string) body a n :
  let s := serve E rs (boot w) in
  accountsById (store s) !! i = Some a →
  numeric (field (or_else body (VObj [])) "amount") = Some n →
  let b := num_add (balance_or_zero (store s) i) n in
  ∃ s',
    post_credit i body s = (Return (Response 200 (ReplyCredit i b)), s') ∧
    accountsById (store s') = accountsById (store s) ∧
    accountsByUserId (store s') = accountsByUserId (store s) ∧
    accountCounter (store s') = accountCounter (store s) ∧
    balancesByAccountId (store s') = <[i := b]> (balancesByAccountId (store s)) ∧
    get_account i s'
    = (Return (Response 200
                 (ReplyAccountBalance a (if isNaN b then Fin 0 else b))), s').
Proof.
  intros s Ha Hn b.
  pose proof (stored_under_id s (numbered_serve E rs w) _ _ Ha) as Hid.
  rewrite (post_credit_run i body s a Ha), Hn, Hid.
  eexists. split; [reflexivity|]. cbn [store snd applyCredit_in].
  repeat (split; [done|]).
  apply get_account_run; cbn [store accountsById]; [done..|].
  unfold balance_or_zero at 1. cbn [balancesByAccountId].
  rewrite lookup_insert_eq. fold b. by destruct b as [[| |]| | |].
Qed.

(** X6: every handler replies, whatever the body and whatever the
    downstream answers: no route lets an exception escape.  A reply that
    carries an [error] never has a 2xx status, and every other reply has
    status 200 or 201. *)
Theorem handlers_always_reply r s :
  ∃ reply s',
    handle E r s = (Return reply, s') ∧
    (∀ msg, json reply = ReplyError msg → ¬ (200 ≤ status reply ≤ 299)) ∧
    ((∀ msg, json reply ≠ ReplyError msg) →
     status reply = 200 ∨ status reply = 201).
Proof.
  destruct r as [body|i|query|i body|body|]; simpl.
  - destruct (truthy (field (or_else body (VObj [])) "userId")) eqn:Hu.
    + destruct (fetch E (Request "GET"
                  (IDENTITY_BASE_URL E +:+ "/users/" +:+
                   encodeURIComponent (field (or_else body (VObj [])) "userId"))
                  None) (outside s)) as [answer w] eqn:H1.
      rewrite (post_accounts_run E body s answer w Hu H1). cbv zeta.
      destruct (yields answer "user") as [user|e] eqn:Hy;
        eexists; eexists; (split; [reflexivity|]).
      * split; [done|]. auto.
      * split; [intros msg _; by apply thrown_status_not_ok with answer "user"|].
        intros Hne. by destruct (Hne (err_message e)).
    + rewrite post_accounts_refused by done.
      eexists. eexists. split; [reflexivity|]. split; [simpl; lia|].
      intros Hne. by destruct (Hne "userId is required").
  - unfold get_account. rewrite bind_run. unfold read at 1.
    destruct (accountsById (store s) !! i) as [a|].
    + rewrite bind_run. unfold read at 1.
      eexists. eexists. split; [reflexivity|]. split; [done|]. auto.
    + eexists. eexists. split; [reflexivity|]. split; [simpl; lia|].
      intros Hne. by destruct (Hne "account not found").
  - unfold get_accounts. destruct (negb _).
    + eexists. eexists. split; [reflexivity|]. split; [simpl; lia|].
      intros Hne. by destruct (Hne "userId query is required").
    + rewrite bind_run. unfold read at 1.
      eexists. eexists. split; [reflexivity|]. split; [done|]. auto.
  - destruct (accountsById (store s) !! i) as [a|] eqn:Ha.
    + rewrite (post_credit_run i body s a Ha). destruct (numeric _).
      * eexists. eexists. split; [reflexivity|]. split; [done|]. auto.
      * eexists. eexists. split; [reflexivity|]. split; [simpl; lia|].
        intros Hne. by destruct (Hne "amount must be a number").
    + unfold post_credit. rewrite bind_run. unfold read at 1. rewrite Ha.
      eexists. eexists. split; [reflexivity|]. split; [simpl; lia|].
      intros Hne. by destruct (Hne "account not found").
  - set (b := or_else body (VObj [])).
    destruct (truthy (field b "name") && truthy (field b "email")
              && truthy (field b "productId")) eqn:Hreq.
    + apply andb_prop in Hreq as [[Hn He]%andb_prop Hp].
      destruct (fetch E (create_user_request E (field b "name")
                           (field b "email")) (outside s))
        as [answer1 w1] eqn:H1.
      rewrite post_onboard_run. fold b. cbv zeta.
      rewrite (onboard_run E _ _ _ _ _ _ _ Hn He Hp H1). cbv zeta.
      destruct (yields answer1 "user") as [user|e] eqn:Hy1.
      * destruct (numeric _); destruct (fetch E _ w1) as [answer2 w2];
          destruct (yields answer2 "assignment") as [assignment|e] eqn:Hy2;
          eexists; eexists; (split; [reflexivity|]);
          first [ by split; [done|auto]
                | split; [intros msg _; by apply thrown_status_not_ok
                                             with answer2 "assignment"|];
                  intros Hne; by destruct (Hne (err_message e)) ].
      * eexists. eexists. split; [reflexivity|].
        split; [intros msg _; by apply thrown_status_not_ok with answer1 "user"|].
        intros Hne. by destruct (Hne (err_message e)).
    + rewrite onboard_refused by done.
      eexists. eexists. split; [reflexivity|]. split; [simpl; lia|].
      intros Hne. by destruct (Hne "name, email, and productId are required").
  - eexists. eexists. split; [reflexivity|]. split; [done|]. auto.
Qed.

End Handlers.

(** ** What every reachable state of the ledger satisfies *)

Section Reachable.
Context {W : Type} (E : env W).
Implicit Types (s : state W) (w : W).

(** X7: in every state the service reaches, the ids in the account map
    are exactly [a1], [a2], ... up to the one before the counter: each
    id was issued once, from a counter that started at 1, and none is
    missing. *)
Theorem account_ids_are_sequential rs w (i : string) :
  let s := serve E rs (boot w) in
  is_Some (accountsById (store s) !! i) ↔
  ∃ k, (1 ≤ k < accountCounter (store s))%nat ∧ i = account_id k.
Proof.
  intros s. pose proof (numbered_serve E rs w) as Hs. fold s in Hs. split.
  - apply (ids_from_one s Hs).
  - intros (k & Hk & ->). by apply (ids_all_issued s Hs).
Qed.

(** X8: accounts are permanent.  Whatever requests are served after a
    reachable state, an account of that state is still in the account
    map under the same id, with the same [userId], [type] and
    [createdAt]: no route deletes or rewrites an account, and the counter
    never goes back. *)
Theorem accounts_are_permanent rs w later (i : string) a :
  let s := serve E rs (boot w) in
  accountsById (store s) !! i = Some a →
  accountsById (store (serve E later s)) !! i = Some a ∧
  (accountCounter (store s) ≤ accountCounter (store (serve E later s)))%nat.
Proof.
  intros s Ha. pose proof (numbered_serve E rs w) as Hs. fold s in Hs.
  destruct (steps_keep_accounts s (serve E later s) Hs (serve_steps E later s Hs))
    as [Hc Hk].
  split; [by apply Hk|done].
Qed.

(** X9: in every state the service reaches, the per-user index and the
    account map agree: an account is in the list kept for the user id
    [u] exactly when it is stored under its own id in the account map
    and its [userId] is [u] (as [Map] compares keys). *)
Theorem index_matches_accounts rs w u (a : Account) :
  let s := serve E rs (boot w) in
  a ∈ default [] (vmap_get (accountsByUserId (store s)) u) ↔
  accountsById (store s) !! id a = Some a ∧
  same_value_zero (userId a) u = true.
Proof.
  intros s.
  rewrite (listing s (consistent_serve E rs _ (consistent_boot w))).
  rewrite in_created_for.
  by rewrite (created_stored s (numbered_serve E rs w)).
Qed.

End Reachable.

(** ** The mock servers, and the service wired to them *)

Section Mocks.
Import Mock.

Lemma pretty_N_char_digit x : is_digit (nat_of_ascii (pretty_N_char x)) = true.
Proof. unfold pretty_N_char. by repeat case_match. Qed.

Lemma digit_is_other c x :
  is_digit (nat_of_ascii c) = false → Ascii.eqb (pretty_N_char x) c = false.
Proof.
  intros Hc. destruct (Ascii.eqb_spec (pretty_N_char x) c) as [<-|]; [|done].
  by rewrite pretty_N_char_digit in Hc.
Qed.

Lemma has_pretty_N_go c x s :
  is_digit (nat_of_ascii c) = false →
  has c s = false → has c (pretty_N_go x s) = false.
Proof.
  intros Hc. revert s. induction (N.lt_wf_0 x) as [x _ IH]. intros s Hs.
  destruct (decide (x = 0)%N) as [->|Hx]; [by rewrite pretty_N_go_0|].
  rewrite pretty_N_go_step by lia. apply IH.
  - apply N.div_lt; lia.
  - simpl. by rewrite digit_is_other, Hs.
Qed.

Lemma has_pretty_nat c (n : nat) :
  is_digit (nat_of_ascii c) = false → has c (pretty n) = false.
Proof.
  intros Hc. unfold pretty, pretty_nat, pretty, pretty_N.
  destruct (decide (N.of_nat n = 0)%N).
  - change (has c "0") with (Ascii.eqb "0" c || false). rewrite orb_false_r.
    destruct (Ascii.eqb_spec "0"%char c) as [<-|]; [|done].
    vm_compute in Hc. discriminate.
  - by apply has_pretty_N_go.
Qed.

Lemma prefix_needs_first c q p :
  has c p = false → String.prefix (String c q) p = false.
Proof.
  destruct p as [|x p]; simpl; [done|].
  intros [Hx _]%orb_false_elim.
  destruct (ascii_dec c x) as [<-|]; [|done].
  by rewrite Ascii.eqb_refl in Hx.
Qed.

Lemma request_target_users enc :
  has "/" enc = false →
  request_target ("/users/" +:+ enc)
  = if String.eqb enc ".." then "/"
    else if String.eqb enc "." then "/users/"
    else "/users/" +:+ enc.
Proof.
  intros He. unfold request_target.
  change (slice1 ("/users/" +:+ enc)) with ("users" +:+ String "/" enc).
  rewrite split_on_app by done. rewrite (split_on_none _ _ He).
  cbn [remove_dot_segments].
  change (String.eqb "users" "..") with false.
  change (String.eqb "users" ".") with false. cbv iota.
  by destruct (String.eqb enc ".."), (String.eqb enc ".").
Qed.

Lemma identity_get_user u m :
  has "/" u = false → has "?" u = false → u ≠ "" →
  identityServer "GET" ("/users/" +:+ u) None m
  = (if startsWith u "unknown" then
       sendJson 404 (VObj [("error", VStr "user not found")])
     else match usersById m !! u with
          | Some user => sendJson 200 (VObj [("user", user)])
          | None =>
              sendJson 200
                (VObj [("user",
                        VObj [("id", VStr u); ("name", VStr "Mock User");
                              ("email", VStr "mock@example.com")])])
          end, m).
Proof.
  intros Hs Hq Hne. unfold identityServer.
  assert (split_on "?" ("/users/" +:+ u) = ["/users/" +:+ u]) as ->.
  { apply split_on_none. by rewrite has_app, Hq. }
  cbn [hd]. change (String.eqb "GET" "GET") with true.
  assert (String.eqb ("/users/" +:+ u) "/health" = false) as ->.
  { simpl. by destruct u as [|[[] [] [] [] [] [] [] []] u]. }
  cbn [andb]. cbv iota. unfold matchPath.
  change ("/users/" +:+ u) with ("" +:+ String "/" ("users" +:+ String "/" u)).
  rewrite !split_on_app by done. rewrite (split_on_none _ _ Hs).
  change (nonempty (split_on "/" "/users/:userId")) with ["users"; ":userId"].
  unfold nonempty. cbn [List.filter].
  change (String.eqb "" "") with true.
  change (String.eqb "users" "") with false. cbn [negb].
  apply String.eqb_neq in Hne. rewrite Hne. cbn [negb length Nat.eqb].
  cbn [match_parts].
  change (startsWith "users" ":") with false.
  change (startsWith ":userId" ":") with true.
  change (String.eqb "users" "users") with true. cbn [negb app].
  change (slice1 ":userId") with "userId". cbn [param].
  change (String.eqb "userId" "userId") with true. cbv iota.
  destruct (startsWith u "unknown"); [done|]. by destruct (usersById m !! u).
Qed.

Lemma catalog_serves enc aid m :
  has "/" enc = false → has "?" enc = false → enc ≠ "" →
  catalogServer "POST" ("/products/" +:+ enc +:+ "/assign")
    (Some (VObj [("accountId", VStr aid)])) m
  = if startsWith enc "unknown" then
      (sendJson 404 (VObj [("error", VStr "product not found")]), m)
    else if String.eqb aid "" then
      (sendJson 400 (VObj [("error", VStr "accountId is required")]), m)
    else
      (sendJson 200
         (VObj [("assignment",
                 VObj [("id", VStr ("as" +:+ pretty (assignmentCounter m)));
                       ("productId", VStr enc); ("accountId", VStr aid)])]),
       Servers (usersById m) (userCounter m) (S (assignmentCounter m))).
Proof.
  intros Hs Hq Hne. unfold catalogServer.
  assert (split_on "?" ("/products/" +:+ enc +:+ "/assign")
          = ["/products/" +:+ enc +:+ "/assign"]) as ->.
  { apply split_on_none. rewrite !has_app, Hq. done. }
  cbn [hd]. change (String.eqb "POST" "GET") with false. cbn [andb].
  change (String.eqb "POST" "POST") with true. cbv iota. unfold matchPath.
  change ("/products/" +:+ enc +:+ "/assign")
    with ("" +:+ String "/" ("products" +:+ String "/" (enc +:+ String "/" "assign"))).
  rewrite !split_on_app by done.
  change (split_on "/" "assign") with ["assign"].
  change (nonempty (split_on "/" "/products/:productId/assign"))
    with ["products"; ":productId"; "assign"].
  unfold nonempty. cbn [List.filter].
  change (String.eqb "" "") with true.
  change (String.eqb "products" "") with false.
  change (String.eqb "assign" "") with false. cbn [negb].
  apply String.eqb_neq in Hne. rewrite Hne. cbn [negb length Nat.eqb].
  cbn [match_parts].
  change (startsWith "products" ":") with false.
  change (startsWith ":productId" ":") with true.
  change (startsWith "assign" ":") with false.
  change (String.eqb "products" "products") with true.
  change (String.eqb "assign" "assign") with true. cbn [negb app].
  change (slice1 ":productId") with "productId". cbn [param].
  change (String.eqb "productId" "productId") with true. cbv iota.
  destruct (startsWith enc "unknown"); [done|].
  cbn [parseJsonBody wire field assoc].
  change (String.eqb "accountId" "accountId") with true. cbv iota.
  cbn [truthy]. by destruct (String.eqb aid "").
Qed.

Lemma plain_has_no_separator p :
  all_unreserved p = true → has "/" p = false ∧ has "?" p = false.
Proof.
  intros Hp. rewrite <- (encode_bytes_unreserved p Hp). apply encode_bytes_plain.
Qed.

Lemma unknown_is_no_dot p :
  startsWith p "unknown" = true →
  p ≠ "" ∧ String.eqb p ".." = false ∧ String.eqb p "." = false.
Proof.
  destruct p as [|[[] [] [] [] [] [] [] []] p]; simpl; try discriminate; done.
Qed.

End Mocks.

Section Wired.
Import Mock.

Lemma strip_app p s : strip p (p +:+ s) = Some s.
Proof.
  induction p as [|c p IH]; simpl; [by destruct s|].
  by rewrite Ascii.eqb_refl.
Qed.

Lemma network_identity method rest body m :
  startsWith rest "/" = true →
  network (Request method (identity_origin +:+ rest) body) m
  = (Responds (fst (identityServer method (request_target rest) body m)),
     snd (identityServer method (request_target rest) body m)).
Proof.
  intros Hr. unfold network. cbn [req_url req_method req_body].
  rewrite strip_app, Hr. by destruct (identityServer _ _ _ _).
Qed.

Lemma network_catalog method rest body m :
  startsWith rest "/" = true →
  network (Request method (catalog_origin +:+ rest) body) m
  = (Responds (fst (catalogServer method (request_target rest) body m)),
     snd (catalogServer method (request_target rest) body m)).
Proof.
  intros Hr. unfold network. cbn [req_url req_method req_body].
  change (strip identity_origin (catalog_origin +:+ rest)) with (@None string).
  rewrite strip_app, Hr. by destruct (catalogServer _ _ _ _).
Qed.

Lemma network_get_user u m :
  has "/" u = false → has "?" u = false → u ≠ "" →
  String.eqb u ".." = false → String.eqb u "." = false →
  network (Request "GET" (identity_origin +:+ "/users/" +:+ u) None) m
  = (Responds (fst (identityServer "GET" ("/users/" +:+ u) None m)), m).
Proof.
  intros Hs Hq Hne Hdd Hd.
  rewrite network_identity by done.
  rewrite request_target_users, Hdd, Hd by done.
  by rewrite identity_get_user.
Qed.

Lemma network_create_user (name email : string) m :
  name ≠ "" → email ≠ "" →
  let user := VObj [("id", VStr ("u" +:+ pretty (userCounter m)));
                    ("name", VStr name); ("email", VStr email)] in
  network (create_user_request world (VStr name) (VStr email)) m
  = (Responds (sendJson 201 (VObj [("user", user)])),
     Servers (<["u" +:+ pretty (userCounter m) := user]> (usersById m))
       (S (userCounter m)) (assignmentCounter m)).
Proof.
  intros Hn He user. unfold create_user_request.
  change (IDENTITY_BASE_URL world +:+ "/users") with (identity_origin +:+ "/users").
  rewrite network_identity by done.
  change (request_target "/users") with "/users".
  unfold identityServer. cbn [hd split_on].
  change (hd "" (split_on "?" "/users")) with "/users".
  change (String.eqb "POST" "GET") with false. cbn [andb]. cbv iota.
  change (String.eqb "POST" "POST") with true.
  change (String.eqb "/users" "/users") with true. cbn [andb]. cbv iota.
  cbn [parseJsonBody wire field assoc].
  change (String.eqb "name" "name") with true.
  change (String.eqb "email" "name") with false.
  change (String.eqb "email" "email") with true. cbv iota. cbn [truthy].
  apply String.eqb_neq in Hn, He. by rewrite Hn, He.
Qed.

Lemma network_assign p aid m :
  has "/" p = false → has "?" p = false → p ≠ "" →
  String.eqb p ".." = false → String.eqb p "." = false →
  network (Request "POST" (catalog_origin +:+ "/products/" +:+ p +:+ "/assign")
             (Some (VObj [("accountId", VStr aid)]))) m
  = (Responds
       (fst (catalogServer "POST" ("/products/" +:+ p +:+ "/assign")
               (Some (VObj [("accountId", VStr aid)])) m)),
     snd (catalogServer "POST" ("/products/" +:+ p +:+ "/assign")
            (Some (VObj [("accountId", VStr aid)])) m)).
Proof.
  intros Hs Hq Hne Hdd Hd.
  rewrite network_catalog by done.
  by rewrite request_target_products, Hdd, Hd.
Qed.

Lemma yields_user_of_identity user :
  ∃ v, yields (Responds (sendJson 200 (VObj [("user", user)]))) "user" = Return v.
Proof. destruct user; by eexists. Qed.

(** X10: the identity mock gives back what it was given.  A
    [POST /users] with a name and an email that are non-empty strings
    replies 201 with a user carrying them and the id [u<counter>], and
    advances the counter; a [GET /users/<id>] that follows replies 200
    with the same user, not with the stand-in the mock invents for ids
    it has never seen. *)
Theorem identity_create_then_fetch (name email : string) m :
  name ≠ "" → email ≠ "" →
  let uid := "u" +:+ pretty (userCounter m) in
  let user := VObj [("id", VStr uid); ("name", VStr name);
                    ("email", VStr email)] in
  ∃ m',
    identityServer "POST" "/users"
      (Some (VObj [("name", VStr name); ("email", VStr email)])) m
    = (sendJson 201 (VObj [("user", user)]), m') ∧
    userCounter m' = S (userCounter m) ∧
    assignmentCounter m' = assignmentCounter m ∧
    identityServer "GET" ("/users/" +:+ uid) None m'
    = (sendJson 200 (VObj [("user", user)]), m').
Proof.
  intros Hn He uid user.
  pose proof (network_create_user name email m Hn He) as Hnet.
  unfold create_user_request in Hnet.
  change (IDENTITY_BASE_URL world +:+ "/users")
    with (identity_origin +:+ "/users") in Hnet.
  rewrite network_identity in Hnet by done.
  change (request_target "/users") with "/users" in Hnet.
  destruct (identityServer "POST" "/users" _ m) as [res m'] eqn:Hpost.
  cbn [fst snd] in Hnet. injection Hnet as -> ->.
  eexists. split; [reflexivity|]. split; [done|]. split; [done|].
  assert (has "/" uid = false ∧ has "?" uid = false ∧ has "n" uid = false)
    as (Hs & Hq & Hk).
  { unfold uid. change ("u" +:+ ?x) with (String "u" x). simpl.
    by rewrite !has_pretty_nat. }
  rewrite identity_get_user by done.
  assert (startsWith uid "unknown" = false) as ->.
  { unfold uid, startsWith. change ("u" +:+ ?x) with (String "u" x).
    change (String.prefix "unknown" (String "u" ?x))
      with (String.prefix "nknown" x).
    apply prefix_needs_first. apply has_pretty_nat. done. }
  cbn [usersById]. fold uid. by rewrite lookup_insert_eq.
Qed.

(** X11: the two mock servers change their stores only when they
    succeed.  The identity server leaves them as they are unless it
    replies 201, and then it advances the user counter by one and
    leaves the assignment counter alone; the catalog server leaves them
    as they are unless it replies 200, and it never touches the users
    or the user counter. *)
Theorem mock_servers_change_only_on_success method target body m :
  (res_status (fst (identityServer method target body m)) ≠ 201 →
   snd (identityServer method target body m) = m) ∧
  (res_status (fst (identityServer method target body m)) = 201 →
   userCounter (snd (identityServer method target body m)) = S (userCounter m) ∧
   assignmentCounter (snd (identityServer method target body m))
   = assignmentCounter m) ∧
  (res_status (fst (catalogServer method target body m)) ≠ 200 →
   snd (catalogServer method target body m) = m) ∧
  usersById (snd (catalogServer method target body m)) = usersById m ∧
  userCounter (snd (catalogServer method target body m)) = userCounter m.
Proof.
  unfold identityServer, catalogServer.
  repeat split; repeat case_match; simpl; try done.
Qed.

(** X12: against the mocks, [POST /accounts] for a user id made of
    unreserved characters and starting with ["unknown"] is answered with
    the 404 and the message of the identity mock; one [GET] went to the
    identity service, and neither the ledger nor the mocks changed. *)
Theorem unknown_user_rejected body (u : string) s :
  field (or_else body (VObj [])) "userId" = VStr u →
  all_unreserved u = true → startsWith u "unknown" = true →
  post_accounts world body s
  = (Return (Response 404 (ReplyError "user not found")),
     State (store s) (outside s)
       (trace s ++ [Fetched (Request "GET"
                               (identity_origin +:+ "/users/" +:+ u) None)])).
Proof.
  intros Hu Hplain Hunknown.
  destruct (plain_has_no_separator u Hplain) as [Hs Hq].
  destruct (unknown_is_no_dot u Hunknown) as (Hne & Hdd & Hd).
  assert (truthy (field (or_else body (VObj [])) "userId") = true) as Htruthy.
  { rewrite Hu. simpl. apply String.eqb_neq in Hne. by rewrite Hne. }
  pose proof (network_get_user u (outside s) Hs Hq Hne Hdd Hd) as Hnet.
  rewrite identity_get_user, Hunknown in Hnet by done. cbn [fst] in Hnet.
  assert (fetch world
            (Request "GET"
               (IDENTITY_BASE_URL world +:+ "/users/" +:+
                encodeURIComponent (field (or_else body (VObj [])) "userId"))
               None) (outside s)
          = (Responds (sendJson 404 (VObj [("error", VStr "user not found")])),
             outside s)) as H1.
  { rewrite Hu. unfold encodeURIComponent. cbn [to_string].
    rewrite (encode_bytes_unreserved u Hplain). exact Hnet. }
  rewrite (post_accounts_run world body s _ _ Htruthy H1).
  cbv zeta. rewrite Hu. unfold encodeURIComponent. cbn [to_string].
  by rewrite (encode_bytes_unreserved u Hplain).
Qed.

(** X13: against the mocks, [POST /accounts] for any other user id made
    of unreserved characters (not empty, not [.] or [..], not starting
    with ["unknown"]) is answered 201 with a new account for that user
    id, whether or not the identity mock has ever seen the user; the
    mocks are left as they were. *)
Theorem known_user_accepted body (u : string) s :
  let b := or_else body (VObj []) in
  field b "userId" = VStr u →
  all_unreserved u = true → u ≠ "" → u ≠ "." → u ≠ ".." →
  startsWith u "unknown" = false →
  let account :=
    mkAccount (account_id (accountCounter (store s))) (VStr u)
      (field_default b "type" (VStr "standard")) noon in
  ∃ s',
    post_accounts world body s
    = (Return (Response 201 (ReplyAccount account)), s') ∧
    outside s' = outside s ∧
    accountsById (store s') !! id account = Some account ∧
    balancesByAccountId (store s') !! id account = Some (Fin 0).
Proof.
  intros b Hu Hplain Hne Hd Hdd Hknown account.
  destruct (plain_has_no_separator u Hplain) as [Hs Hq].
  apply String.eqb_neq in Hd, Hdd.
  assert (truthy (field b "userId") = true) as Htruthy.
  { rewrite Hu. simpl. pose proof Hne as Hne'%String.eqb_neq. by rewrite Hne'. }
  pose proof (network_get_user u (outside s) Hs Hq Hne Hdd Hd) as Hnet.
  rewrite identity_get_user, Hknown in Hnet by done. cbn [fst] in Hnet.
  assert (fetch world
            (Request "GET"
               (IDENTITY_BASE_URL world +:+ "/users/" +:+
                encodeURIComponent (field (or_else body (VObj [])) "userId"))
               None) (outside s)
          = (Responds
               match usersById (outside s) !! u with
               | Some user => sendJson 200 (VObj [("user", user)])
               | None =>
                   sendJson 200
                     (VObj [("user",
                             VObj [("id", VStr u); ("name", VStr "Mock User");
                                   ("email", VStr "mock@example.com")])])
               end, outside s)) as H1.
  { fold b. rewrite Hu. unfold encodeURIComponent. cbn [to_string].
    rewrite (encode_bytes_unreserved u Hplain). exact Hnet. }
  rewrite (post_accounts_run world body s _ _ Htruthy H1).
  cbv zeta. fold b.
  assert (∃ v, yields
                 (Responds
                    match usersById (outside s) !! u with
                    | Some user => sendJson 200 (VObj [("user", user)])
                    | None =>
                        sendJson 200
                          (VObj [("user",
                                  VObj [("id", VStr u); ("name", VStr "Mock User");
                                        ("email", VStr "mock@example.com")])])
                    end) "user" = Return v) as [v ->].
  { destruct (usersById (outside s) !! u); apply yields_user_of_identity. }
  rewrite Hu. eexists. split; [reflexivity|]. cbn [outside store snd].
  split; [done|]. split; apply lookup_insert_eq.
Qed.

(** X14: against the mocks, an onboarding with non-empty strings as
    name and email and a product id made of unreserved characters that
    starts with ["unknown"] is answered with the 404 of the catalog mock,
    after the identity mock has created the user and the ledger has got
    the account: the user counter has advanced and the user is stored,
    the account is in the account map under the user's id with the
    opening balance, and no assignment was made. *)
Theorem onboard_unknown_product_against_mocks body (name email p : string) s :
  let b := or_else body (VObj []) in
  field b "name" = VStr name → field b "email" = VStr email →
  field b "productId" = VStr p →
  name ≠ "" → email ≠ "" →
  all_unreserved p = true → startsWith p "unknown" = true →
  let uid := "u" +:+ pretty (userCounter (outside s)) in
  let user := VObj [("id", VStr uid); ("name", VStr name);
                    ("email", VStr email)] in
  let account :=
    mkAccount (account_id (accountCounter (store s))) (VStr uid)
      (VStr "standard") noon in
  ∃ s',
    post_onboard world body s
    = (Return (Response 404 (ReplyError "product not found")), s') ∧
    usersById (outside s') !! uid = Some user ∧
    userCounter (outside s') = S (userCounter (outside s)) ∧
    assignmentCounter (outside s') = assignmentCounter (outside s) ∧
    accountsById (store s') !! id account = Some account ∧
    balancesByAccountId (store s') !! id account
    = Some (opening_balance (field_default b "initialCredit" (VNum (Fin 0)))).
Proof.
  intros b Hname Hemail Hpid Hn He Hplain Hunknown uid user account.
  destruct (plain_has_no_separator p Hplain) as [Hs Hq].
  destruct (unknown_is_no_dot p Hunknown) as (Hne & Hdd & Hd).
  assert (truthy (VStr name) = true ∧ truthy (VStr email) = true ∧
          truthy (VStr p) = true) as (Htn & Hte & Htp).
  { simpl. apply String.eqb_neq in Hn, He, Hne. by rewrite Hn, He, Hne. }
  rewrite post_onboard_run. fold b. cbv zeta. rewrite Hname, Hemail, Hpid.
  rewrite (onboard_run world _ _ _ _ _ _ _ Htn Hte Htp
             (network_create_user name email (outside s) Hn He)).
  cbv zeta.
  change (yields (Responds (sendJson 201 (VObj [("user", ?x)]))) "user")
    with (Return (A:=value) x).
  cbv iota beta.
  change (fst (createAccount_in _ _ _ _)) with account.
  set (l1 := snd (createAccount_in _ _ _ _)).
  assert (balancesByAccountId l1 !! id account = Some (Fin 0)) as Hb
    by apply lookup_insert_eq.
  assert (accountsById l1 !! id account = Some account) as Ha
    by apply lookup_insert_eq.
  pose proof (opening_balance_stored
                (field_default b "initialCredit" (VNum (Fin 0))) account l1 Hb)
    as Hob.
  unfold assign_request.
  change (CATALOG_BASE_URL world) with catalog_origin.
  unfold encodeURIComponent. cbn [to_string].
  rewrite (encode_bytes_unreserved p Hplain).
  destruct (numeric _) as [n|];
    rewrite (network_assign p _ _ Hs Hq Hne Hdd Hd);
    rewrite (catalog_serves p _ _ Hs Hq Hne), Hunknown; cbn [fst snd];
    change (yields (Responds (sendJson 404
                                (VObj [("error", VStr "product not found")])))
              "assignment")
      with (Throw (A:=value) (JsError "product not found" (Some 404)));
    cbv iota;
    (eexists; split; [reflexivity|]); cbn [outside store usersById userCounter
                                           assignmentCounter];
    (split; [apply lookup_insert_eq|]); repeat (split; [done|]); exact Hob.
Qed.

(** X15: against the mocks, an onboarding with non-empty strings as
    name and email and any other product id made of unreserved
    characters (not empty, not [.] or [..], not starting with
    ["unknown"]) is answered 201: the user is the one the identity mock
    numbered, the account belongs to that user, the assignment carries
    the requested product id and the id of the new account, and the
    balance is the opening balance; both mocks advanced their counter. *)
Theorem onboard_against_mocks body (name email p : string) s :
  let b := or_else body (VObj []) in
  field b "name" = VStr name → field b "email" = VStr email →
  field b "productId" = VStr p →
  name ≠ "" → email ≠ "" →
  all_unreserved p = true → p ≠ "" → p ≠ "." → p ≠ ".." →
  startsWith p "unknown" = false →
  let uid := "u" +:+ pretty (userCounter (outside s)) in
  let user := VObj [("id", VStr uid); ("name", VStr name);
                    ("email", VStr email)] in
  let account :=
    mkAccount (account_id (accountCounter (store s))) (VStr uid)
      (VStr "standard") noon in
  let assignment :=
    VObj [("id", VStr ("as" +:+ pretty (assignmentCounter (outside s))));
          ("productId", VStr p); ("accountId", VStr (id account))] in
  let balance := opening_balance (field_default b "initialCredit" (VNum (Fin 0))) in
  ∃ s',
    post_onboard world body s
    = (Return (Response 201 (ReplyOnboard user account assignment balance)), s') ∧
    userCounter (outside s') = S (userCounter (outside s)) ∧
    assignmentCounter (outside s') = S (assignmentCounter (outside s)) ∧
    accountsById (store s') !! id account = Some account ∧
    balancesByAccountId (store s') !! id account = Some balance.
Proof.
  intros b Hname Hemail Hpid Hn He Hplain Hne Hd Hdd Hknown
    uid user account assignment balance.
  destruct (plain_has_no_separator p Hplain) as [Hs Hq].
  apply String.eqb_neq in Hd, Hdd.
  assert (truthy (VStr name) = true ∧ truthy (VStr email) = true ∧
          truthy (VStr p) = true) as (Htn & Hte & Htp).
  { simpl. pose proof Hne as Hne'. apply String.eqb_neq in Hn, He, Hne'.
    by rewrite Hn, He, Hne'. }
  rewrite post_onboard_run. fold b. cbv zeta. rewrite Hname, Hemail, Hpid.
  rewrite (onboard_run world _ _ _ _ _ _ _ Htn Hte Htp
             (network_create_user name email (outside s) Hn He)).
  cbv zeta.
  change (yields (Responds (sendJson 201 (VObj [("user", ?x)]))) "user")
    with (Return (A:=value) x).
  cbv iota beta.
  change (fst (createAccount_in _ _ _ _)) with account.
  set (l1 := snd (createAccount_in _ _ _ _)).
  assert (balancesByAccountId l1 !! id account = Some (Fin 0)) as Hb
    by apply lookup_insert_eq.
  assert (accountsById l1 !! id account = Some account) as Ha
    by apply lookup_insert_eq.
  pose proof (opening_balance_stored
                (field_default b "initialCredit" (VNum (Fin 0))) account l1 Hb)
    as Hob.
  pose proof (opening_balance_read _ _ _ Hob) as Hread.
  unfold assign_request.
  change (CATALOG_BASE_URL world) with catalog_origin.
  unfold encodeURIComponent. cbn [to_string].
  rewrite (encode_bytes_unreserved p Hplain).
  fold balance in Hob, Hread.
  destruct (numeric _) as [n|];
    rewrite (network_assign p _ _ Hs Hq Hne Hdd Hd);
    rewrite (catalog_serves p _ _ Hs Hq Hne), Hknown;
    change (String.eqb (id account) "") with false; cbn [fst snd];
    change (yields (Responds (sendJson 200 (VObj [("assignment", ?x)])))
              "assignment")
      with (Return (A:=value) x);
    cbv iota; rewrite Hread;
    (eexists; split; [reflexivity|]); cbn [outside store usersById userCounter
                                           assignmentCounter];
    repeat (split; [done|]); exact Hob.
Qed.

End Wired.

(** ** The further properties on concrete requests *)

Lemma post_accounts_all_or_nothing_witness :
  ∃ r, post_accounts Mock.world (VObj [("type", VStr "savings")])
         (boot Mock.initial)
       = (Return r, boot Mock.initial) ∧ status r = 400.
Proof.
  destruct (post_accounts_all_or_nothing Mock.world
              (VObj [("type", VStr "savings")]) (boot Mock.initial))
    as (r & s' & Hrun & _ & Hmissing).
  destruct (Hmissing eq_refl) as [Hstatus ->]. eauto.
Defined.

Lemma create_then_get_witness :
  get_account "a1"
    (snd (post_accounts Mock.world (VObj [("userId", VStr "u7")])
            (boot Mock.initial)))
  = (Return (Response 200
               (ReplyAccountBalance
                  (mkAccount "a1" (VStr "u7") (VStr "standard") noon) (Fin 0))),
     snd (post_accounts Mock.world (VObj [("userId", VStr "u7")])
            (boot Mock.initial))).
Proof.
  exact (create_then_get Mock.world (VObj [("userId", VStr "u7")])
           (boot Mock.initial)
           (mkAccount "a1" (VStr "u7") (VStr "standard") noon)
           (snd (post_accounts Mock.world (VObj [("userId", VStr "u7")])
                   (boot Mock.initial)))
           eq_refl).
Defined.

Lemma get_account_reply_witness :
  get_account "a9" (boot Mock.initial)
  = (Return (Response 404 (ReplyError "account not found")), boot Mock.initial) ∧
  get_account "a1" (serve Mock.world three_accounts (boot Mock.initial))
  = (Return (Response 200
               (ReplyAccountBalance
                  (mkAccount "a1" (VStr "u7") (VStr "standard") noon)
                  (of_int (-150)))),
     serve Mock.world three_accounts (boot Mock.initial)).
Proof.
  split.
  - destruct (get_account_reply "a9" (boot Mock.initial))
      as (r & Hrun & Hnone & _).
    rewrite Hrun, (Hnone eq_refl). reflexivity.
  - destruct (get_account_reply "a1"
                (serve Mock.world three_accounts (boot Mock.initial)))
      as (r & Hrun & _ & Hsome & _).
    rewrite Hrun,
      (Hsome (mkAccount "a1" (VStr "u7") (VStr "standard") noon) eq_refl).
    reflexivity.
Defined.

Lemma credit_rejects_non_numbers_witness :
  post_credit "a1" (VObj [("amount", VStr "12")])
    (serve Mock.world three_accounts (boot Mock.initial))
  = (Return (Response 400 (ReplyError "amount must be a number")),
     serve Mock.world three_accounts (boot Mock.initial)).
Proof.
  exact (proj1 (credit_rejects_non_numbers "a1" (VObj [("amount", VStr "12")])
                  (serve Mock.world three_accounts (boot Mock.initial))
                  (mkAccount "a1" (VStr "u7") (VStr "standard") noon)
                  eq_refl eq_refl)).
Defined.

Lemma credit_then_get_witness :
  (∃ s',
      post_credit "a1" (VObj [("amount", VNum (of_int 50))])
        (serve Mock.world three_accounts (boot Mock.initial))
      = (Return (Response 200 (ReplyCredit "a1" (of_int (-100)))), s') ∧
      get_account "a1" s'
      = (Return (Response 200
                   (ReplyAccountBalance
                      (mkAccount "a1" (VStr "u7") (VStr "standard") noon)
                      (of_int (-100)))), s')) ∧
  (∃ s',
      post_credit "a1" (VObj [("amount", VNum (of_int 3))])
        (serve Mock.world beyond_2_53 (boot Mock.initial))
      = (Return (Response 200 (ReplyCredit "a1" (of_int 9007199254740996))), s') ∧
      get_account "a1" s'
      = (Return (Response 200
                   (ReplyAccountBalance
                      (mkAccount "a1" (VStr "u7") (VStr "standard") noon)
                      (of_int 9007199254740996))), s')).
Proof.
  split.
  - destruct (credit_then_get Mock.world three_accounts Mock.initial "a1"
                (VObj [("amount", VNum (of_int 50))])
                (mkAccount "a1" (VStr "u7") (VStr "standard") noon) (of_int 50)
                eq_refl eq_refl)
      as (s' & Hcredit & _ & _ & _ & _ & Hget).
    exists s'. split; [exact Hcredit|exact Hget].
  - destruct (credit_then_get Mock.world beyond_2_53 Mock.initial "a1"
                (VObj [("amount", VNum (of_int 3))])
                (mkAccount "a1" (VStr "u7") (VStr "standard") noon) (of_int 3)
                eq_refl eq_refl)
      as (s' & Hcredit & _ & _ & _ & _ & Hget).
    exists s'. split; [exact Hcredit|exact Hget].
Defined.

Lemma handlers_always_reply_witness :
  ∃ reply s',
    handle Mock.world (PostOnboard (ada (VStr "unknown-x") []))
      (boot Mock.initial) = (Return reply, s') ∧
    ¬ (200 ≤ status reply ≤ 299).
Proof.
  destruct (handlers_always_reply Mock.world
              (PostOnboard (ada (VStr "unknown-x") [])) (boot Mock.initial))
    as (reply & s' & Hrun & Herror & _).
  exists reply, s'. split; [exact Hrun|].
  apply (Herror "product not found").
  assert (fst (handle Mock.world (PostOnboard (ada (VStr "unknown-x") []))
                 (boot Mock.initial))
          = Return (Response 404 (ReplyError "product not found"))) as Hfst
    by reflexivity.
  rewrite Hrun in Hfst. by injection Hfst as ->.
Defined.

Lemma account_ids_are_sequential_witness :
  is_Some (accountsById
             (store (serve Mock.world three_accounts (boot Mock.initial)))
           !! "a2") ∧
  ¬ is_Some (accountsById
               (store (serve Mock.world three_accounts (boot Mock.initial)))
             !! "a4").
Proof.
  split.
  - apply (proj2 (account_ids_are_sequential Mock.world three_accounts
                    Mock.initial "a2")).
    exists 2%nat. split; [|reflexivity]. vm_compute. lia.
  - intros Hin.
    destruct (proj1 (account_ids_are_sequential Mock.world three_accounts
                       Mock.initial "a4") Hin) as (k & Hk & Heq).
    change "a4" with (account_id 4) in Heq. apply account_id_inj in Heq.
    subst k. vm_compute in Hk. lia.
Defined.

Lemma accounts_are_permanent_witness :
  accountsById
    (store (serve Mock.world both_infinities
              (serve Mock.world three_accounts (boot Mock.initial))))
  !! "a2"
  = Some (mkAccount "a2" (VStr "u8") (VStr "savings") noon).
Proof.
  exact (proj1 (accounts_are_permanent Mock.world three_accounts Mock.initial
                  both_infinities "a2"
                  (mkAccount "a2" (VStr "u8") (VStr "savings") noon) eq_refl)).
Defined.

Lemma index_matches_accounts_witness :
  mkAccount "a3" (VStr "u7") (VStr "standard") noon
  ∈ default []
      (vmap_get
         (accountsByUserId
            (store (serve Mock.world three_accounts (boot Mock.initial))))
         (VStr "u7")).
Proof.
  apply (proj2 (index_matches_accounts Mock.world three_accounts Mock.initial
                  (VStr "u7")
                  (mkAccount "a3" (VStr "u7") (VStr "standard") noon))).
  split; reflexivity.
Defined.

Lemma identity_create_then_fetch_witness :
  ∃ m',
    Mock.identityServer "POST" "/users"
      (Some (VObj [("name", VStr "Ada"); ("email", VStr "ada@example.com")]))
      Mock.initial
    = (Mock.sendJson 201 (VObj [("user", ada_user)]), m') ∧
    Mock.identityServer "GET" "/users/u1" None m'
    = (Mock.sendJson 200 (VObj [("user", ada_user)]), m').
Proof.
  assert ("Ada" ≠ "") as Hname by discriminate.
  assert ("ada@example.com" ≠ "") as Hemail by discriminate.
  destruct (identity_create_then_fetch "Ada" "ada@example.com" Mock.initial
              Hname Hemail) as (m' & Hpost & _ & _ & Hget).
  exists m'. split; [exact Hpost|exact Hget].
Defined.

Lemma mock_servers_change_only_on_success_witness :
  snd (Mock.identityServer "POST" "/users"
         (Some (VObj [("name", VStr "Ada")])) Mock.initial) = Mock.initial ∧
  snd (Mock.catalogServer "POST" "/products/unknown-x/assign"
         (Some (VObj [("accountId", VStr "a1")])) Mock.initial) = Mock.initial.
Proof.
  split.
  - apply (proj1 (mock_servers_change_only_on_success "POST" "/users"
                    (Some (VObj [("name", VStr "Ada")])) Mock.initial)).
    vm_compute. discriminate.
  - apply (proj1 (proj2 (proj2 (mock_servers_change_only_on_success "POST"
                    "/products/unknown-x/assign"
                    (Some (VObj [("accountId", VStr "a1")])) Mock.initial)))).
    vm_compute. discriminate.
Defined.

Lemma unknown_user_rejected_witness :
  post_accounts Mock.world (VObj [("userId", VStr "unknown-7")])
    (boot Mock.initial)
  = (Return (Response 404 (ReplyError "user not found")),
     State initial_ledger Mock.initial
       [Fetched (Request "GET" "http://identity-api:3001/users/unknown-7" None)]).
Proof.
  exact (unknown_user_rejected (VObj [("userId", VStr "unknown-7")])
           "unknown-7" (boot Mock.initial) eq_refl eq_refl eq_refl).
Defined.

Lemma known_user_accepted_witness :
  ∃ s',
    post_accounts Mock.world
      (VObj [("userId", VStr "u7"); ("type", VStr "savings")])
      (boot Mock.initial)
    = (Return (Response 201
                 (ReplyAccount
                    (mkAccount "a1" (VStr "u7") (VStr "savings") noon))), s') ∧
    outside s' = Mock.initial.
Proof.
  assert ("u7" ≠ "" ∧ "u7" ≠ "." ∧ "u7" ≠ "..") as (H1 & H2 & H3)
    by (repeat split; discriminate).
  destruct (known_user_accepted
              (VObj [("userId", VStr "u7"); ("type", VStr "savings")]) "u7"
              (boot Mock.initial) eq_refl eq_refl H1 H2 H3 eq_refl)
    as (s' & Hrun & Hout & _).
  exists s'. split; [exact Hrun|exact Hout].
Defined.

Lemma onboard_unknown_product_against_mocks_witness :
  ∃ s',
    post_onboard Mock.world (ada (VStr "unknown-x") []) (boot Mock.initial)
    = (Return (Response 404 (ReplyError "product not found")), s') ∧
    Mock.usersById (outside s') !! "u1" = Some ada_user ∧
    accountsById (store s') !! "a1"
    = Some (mkAccount "a1" (VStr "u1") (VStr "standard") noon) ∧
    balancesByAccountId (store s') !! "a1" = Some (Fin 0).
Proof.
  assert ("Ada" ≠ "") as Hname by discriminate.
  assert ("ada@example.com" ≠ "") as Hemail by discriminate.
  destruct (onboard_unknown_product_against_mocks
              (ada (VStr "unknown-x") []) "Ada" "ada@example.com" "unknown-x"
              (boot Mock.initial) eq_refl eq_refl eq_refl Hname Hemail
              eq_refl eq_refl)
    as (s' & Hrun & Huser & _ & _ & Haccount & Hbalance).
  exists s'. repeat split; assumption.
Defined.

Lemma onboard_against_mocks_witness :
  ∃ s',
    post_onboard Mock.world
      (ada (VStr "p1") [("initialCredit", VNum (of_int 100))]) (boot Mock.initial)
    = (Return (Response 201
                 (ReplyOnboard ada_user
                    (mkAccount "a1" (VStr "u1") (VStr "standard") noon)
                    (VObj [("id", VStr "as1"); ("productId", VStr "p1");
                           ("accountId", VStr "a1")])
                    (of_int 100))), s') ∧
    Mock.assignmentCounter (outside s') = 2%nat.
Proof.
  assert ("Ada" ≠ "") as Hname by discriminate.
  assert ("ada@example.com" ≠ "") as Hemail by discriminate.
  assert ("p1" ≠ "" ∧ "p1" ≠ "." ∧ "p1" ≠ "..") as (H1 & H2 & H3)
    by (repeat split; discriminate).
  destruct (onboard_against_mocks
              (ada (VStr "p1") [("initialCredit", VNum (of_int 100))])
              "Ada" "ada@example.com" "p1" (boot Mock.initial)
              eq_refl eq_refl eq_refl Hname Hemail eq_refl H1 H2 H3 eq_refl)
    as (s' & Hrun & _ & Hassigned & _).
  exists s'. split; [exact Hrun|exact Hassigned].
Defined.
